(** * Stock Hunter FastAPI gateway: request validation and error translation

    A shallow embedding of [fastapi-gateway/main.py]: the two request
    models ([ScreeningRequest], [CredentialsRequest]), the route handlers
    ([root], [api_info], [health_check], [screen_stocks],
    [validate_credentials], [get_stock_codes]) and the two exception
    handlers, followed by the properties of the gateway's contract. *)

From Stdlib Require Import String Ascii ZArith List Bool Lia.
From Stdlib Require Import SpecFloat DecimalString.
Import ListNotations.
Local Open Scope string_scope.
Local Open Scope Z_scope.

Set Implicit Arguments.
Set Warnings "-register-all".

(** ** Values *)

(** Python [float]: an IEEE-754 binary64 number. *)
Definition float := spec_float.

Definition prec64 : Z := 53.
Definition emax64 : Z := 1024.

(** [float(n)] for a Python [int]: round to nearest, ties to even. *)
Definition float_of_Z (n : Z) : float := binary_normalize prec64 emax64 n 0 false.

Definition fleb (x y : float) : bool := SFleb x y.
Definition fltb (x y : float) : bool := SFltb x y.

Definition is_finite (x : float) : bool :=
  match x with
  | S754_zero _ | S754_finite _ _ _ => true
  | S754_infinity _ | S754_nan => false
  end.

(** What [json.loads] produces and [json.dumps] consumes.  A [dict] keeps
    its insertion order; its keys are distinct. *)
Inductive JSON : Type :=
| JNull
| JBool (b : bool)
| JInt (n : Z)
| JFloat (x : float)
| JStr (s : string)
| JArr (l : list JSON)
| JObj (kv : list (string * JSON)).

(** [d.get(k)] / [k in d] on the items of a dict. *)
Fixpoint dict_lookup (k : string) (kv : list (string * JSON)) : option JSON :=
  match kv with
  | [] => None
  | (k', v) :: rest => if String.eqb k k' then Some v else dict_lookup k rest
  end.


(** [d[k] = v]: overwrite in place, or append a new key. *)
Fixpoint dict_set (k : string) (v : JSON) (kv : list (string * JSON))
  : list (string * JSON) :=
  match kv with
  | [] => [(k, v)]
  | (k', v') :: rest =>
      if String.eqb k k' then (k', v) :: rest else (k', v') :: dict_set k v rest
  end.

(** A Python [str] is held as the bytes of its UTF-8 encoding.  A lone
    surrogate, which [json.loads] accepts (as in ["\ud800"]) and UTF-8
    cannot encode, is held as the three bytes of its code point: [ED],
    then a byte from [A0] on. *)
Definition is_surrogate_lead (c : ascii) : bool := (N_of_ascii c =? 237)%N.

Definition is_surrogate_trail (c : ascii) : bool := (160 <=? N_of_ascii c)%N.

Fixpoint has_surrogate (s : string) : bool :=
  match s with
  | EmptyString => false
  | String c rest =>
      (is_surrogate_lead c
       && match rest with
          | String d _ => is_surrogate_trail d
          | EmptyString => false
          end)
      || has_surrogate rest
  end.

(** What [json.dumps(..., allow_nan=False)] accepts: no infinite number and
    no NaN anywhere in the value. *)
Fixpoint json_finite (v : JSON) : bool :=
  match v with
  | JFloat x => is_finite x
  | JArr l => forallb json_finite l
  | JObj kv => forallb (fun p => match p with (_, v') => json_finite v' end) kv
  | _ => true
  end.

(** What [json.dumps(..., ensure_ascii=False, allow_nan=False).encode("utf-8")]
    accepts: finite numbers only, and no lone surrogate in a string or in
    a key. *)
Fixpoint json_compliant (v : JSON) : bool :=
  match v with
  | JFloat x => is_finite x
  | JStr s => negb (has_surrogate s)
  | JArr l => forallb json_compliant l
  | JObj kv =>
      forallb (fun p => match p with
                        | (k, v') => negb (has_surrogate k) && json_compliant v'
                        end) kv
  | _ => true
  end.

(** [str(n)] for an [int]. *)
Definition str_of_Z (n : Z) : string := NilZero.string_of_int (Z.to_int n).

Definition str_of_bool (b : bool) : string := if b then "True" else "False".

(** ** Regular expressions for [Field(pattern=...)] *)

Module Regex.

Inductive regex : Type :=
| Void
| Eps
| Chr (c : ascii)
| Cat (r1 r2 : regex)
| Alt (r1 r2 : regex).

Fixpoint lit (s : string) : regex :=
  match s with
  | EmptyString => Eps
  | String c s' => Cat (Chr c) (lit s')
  end.

Fixpoint nullable (r : regex) : bool :=
  match r with
  | Void => false
  | Eps => true
  | Chr _ => false
  | Cat r1 r2 => nullable r1 && nullable r2
  | Alt r1 r2 => nullable r1 || nullable r2
  end.

Fixpoint deriv (c : ascii) (r : regex) : regex :=
  match r with
  | Void => Void
  | Eps => Void
  | Chr c' => if Ascii.eqb c c' then Eps else Void
  | Cat r1 r2 =>
      if nullable r1 then Alt (Cat (deriv c r1) r2) (deriv c r2)
      else Cat (deriv c r1) r2
  | Alt r1 r2 => Alt (deriv c r1) (deriv c r2)
  end.

(** A pattern anchored as [^(...)$] must consume the whole input.  The
    validator's regex engine lets [$] match at the very end only. *)
Fixpoint fullmatch (r : regex) (s : string) : bool :=
  match s with
  | EmptyString => nullable r
  | String c s' => fullmatch (deriv c r) s'
  end.

(** The language of a regex, as a relation. *)
Inductive matches : regex -> string -> Prop :=
| m_eps : matches Eps ""
| m_chr c : matches (Chr c) (String c "")
| m_cat r1 r2 s1 s2 :
    matches r1 s1 -> matches r2 s2 -> matches (Cat r1 r2) (s1 ++ s2)
| m_alt_l r1 r2 s : matches r1 s -> matches (Alt r1 r2) s
| m_alt_r r1 r2 s : matches r2 s -> matches (Alt r1 r2) s.

End Regex.

(** ** Request models (pydantic) *)

(** The annotation of a model field together with its [Field] constraints. *)
Inductive FieldType : Type :=
| TStr (pattern : option Regex.regex)
| TBool
| TInt (ge le : option Z)
| TFloat (ge le : option float)
| TListStr.

(** One declared field; [default = None] is a required field ([...] or no
    default at all). *)
Record FieldInfo : Type := mkField {
  name : string;
  annotation : FieldType;
  default : option JSON
}.

Inductive LocItem : Type :=
| LKey (k : string)
| LIdx (i : nat).

Inductive ErrorKind : Type :=
| missing
| string_type
| bool_type
| int_type
| float_type
| list_type
| model_attributes_type
| bool_parsing
| int_parsing
| int_from_float
| finite_number
| float_parsing
| greater_than_equal
| less_than_equal
| string_pattern_mismatch.

(** One item of a validation error: what failed, where, on which input. *)
Record ErrorDetails : Type := mkError {
  err_type : ErrorKind;
  loc : list LocItem;
  input : JSON
}.

(** Conversions the validation library applies, in its default (lax) mode,
    to an input that is not already of the annotated type: for instance a
    numeric string for an [int] field.  The models do not configure them,
    so they are left open; every property below holds whatever they are. *)
Class LaxConversions : Type := {
  lax_bool : JSON -> option bool;
  lax_int : JSON -> option Z;
  lax_float : JSON -> option float
}.

(** Interpreter primitives used by the handlers.  The messages the
    interpreter writes for its own exceptions hold no lone surrogate. *)
Class Runtime : Type := {
  (** [json.loads]: the value, or the message of the decoding error *)
  json_loads : string -> JSON + string;
  (** [str(x)] of a value interpolated in an f-string *)
  py_str : JSON -> string;
  (** [http.HTTPStatus(sc).phrase]; none for a status that is not listed *)
  status_phrase : Z -> option string;
  (** the message of the [UnicodeEncodeError] raised when the dump of a
      value that holds a lone surrogate is encoded *)
  encode_error : JSON -> string;
  json_loads_message :
    forall s msg, json_loads s = inr msg -> has_surrogate msg = false;
  encode_error_message : forall v, has_surrogate (encode_error v) = false
}.

Definition ge_ok_Z (ge : option Z) (n : Z) : bool :=
  match ge with Some b => b <=? n | None => true end.
Definition le_ok_Z (le : option Z) (n : Z) : bool :=
  match le with Some b => n <=? b | None => true end.

(** A float satisfies a bound when the comparison holds; a NaN compares
    with nothing and satisfies no bound. *)
Definition ge_ok_float (ge : option float) (x : float) : bool :=
  match ge with Some b => fleb b x | None => true end.
Definition le_ok_float (le : option float) (x : float) : bool :=
  match le with Some b => fleb x b | None => true end.

Section Validation.
Context {lax : LaxConversions}.

Definition validate_str (pattern : option Regex.regex) (v : JSON)
  : JSON + ErrorKind :=
  match v with
  | JStr s =>
      match pattern with
      | Some r => if Regex.fullmatch r s then inl (JStr s)
                  else inr string_pattern_mismatch
      | None => inl (JStr s)
      end
  | _ => inr string_type
  end.

(** An input of a type that conversion knows, and that it still refuses,
    is reported as unparsable; an input of another type as of the wrong
    type. *)
Definition validate_bool (v : JSON) : JSON + ErrorKind :=
  match v with
  | JBool b => inl (JBool b)
  | _ => match lax_bool v with
         | Some b => inl (JBool b)
         | None => inr match v with
                       | JStr _ | JInt _ | JFloat _ => bool_parsing
                       | _ => bool_type
                       end
         end
  end.

Definition check_int (ge le : option Z) (n : Z) : JSON + ErrorKind :=
  if negb (le_ok_Z le n) then inr less_than_equal
  else if negb (ge_ok_Z ge n) then inr greater_than_equal
  else inl (JInt n).

(** The integer an input stands for: itself, or what conversion gives. *)
Definition as_int (v : JSON) : option Z :=
  match v with
  | JInt n => Some n
  | _ => lax_int v
  end.

Definition validate_int (ge le : option Z) (v : JSON) : JSON + ErrorKind :=
  match as_int v with
  | Some n => check_int ge le n
  | None => inr match v with
                | JStr _ => int_parsing
                | JFloat x => if is_finite x then int_from_float else finite_number
                | _ => int_type
                end
  end.

Definition check_float (ge le : option float) (x : float) : JSON + ErrorKind :=
  if negb (le_ok_float le x) then inr less_than_equal
  else if negb (ge_ok_float ge x) then inr greater_than_equal
  else inl (JFloat x).

(** The float an input stands for: itself, the nearest float of an [int]
    (none when the [int] is too large), or what conversion gives. *)
Definition as_float (v : JSON) : option float :=
  match v with
  | JFloat x => Some x
  | JInt n => if is_finite (float_of_Z n) then Some (float_of_Z n) else None
  | _ => lax_float v
  end.

Definition validate_float (ge le : option float) (v : JSON)
  : JSON + ErrorKind :=
  match as_float v with
  | Some x => check_float ge le x
  | None => inr match v with
                | JStr _ => float_parsing
                | _ => float_type
                end
  end.

(** [List[str]]: every item is validated; the errors carry the index. *)
Fixpoint validate_items (i : nat) (l : list JSON)
  : list JSON * list (nat * ErrorKind * JSON) :=
  match l with
  | [] => ([], [])
  | v :: rest =>
      let (oks, errs) := validate_items (S i) rest in
      match validate_str None v with
      | inl v' => (v' :: oks, errs)
      | inr k => (oks, (i, k, v) :: errs)
      end
  end.

(** The value of one field, or the errors located below [at_]. *)
Definition validate_value (t : FieldType) (at_ : list LocItem) (v : JSON)
  : JSON + list ErrorDetails :=
  let one (r : JSON + ErrorKind) :=
    match r with
    | inl v' => inl v'
    | inr k => inr [mkError k at_ v]
    end in
  match t with
  | TStr pattern => one (validate_str pattern v)
  | TBool => one (validate_bool v)
  | TInt ge le => one (validate_int ge le v)
  | TFloat ge le => one (validate_float ge le v)
  | TListStr =>
      match v with
      | JArr l =>
          match validate_items 0 l with
          | (oks, []) => inl (JArr oks)
          | (_, errs) =>
              inr (map (fun e => match e with
                                 | (i, k, v') => mkError k (at_ ++ [LIdx i])%list v'
                                 end) errs)
          end
      | _ => inr [mkError list_type at_ v]
      end
  end.

(** One field of the model against the request body: a present key is
    validated, an absent one takes the declared default (which is not
    itself validated) or is reported as missing. *)
Definition validate_field (body : list (string * JSON)) (f : FieldInfo)
  : JSON + list ErrorDetails :=
  let at_ := [LKey "body"; LKey (name f)] in
  match dict_lookup (name f) body with
  | Some v => validate_value (annotation f) at_ v
  | None =>
      match default f with
      | Some d => inl d
      | None => inr [mkError missing at_ (JObj body)]
      end
  end.

(** All fields are validated and all their errors collected, in
    declaration order.  Keys of the body that are not fields are ignored. *)
Fixpoint validate_fields (body : list (string * JSON)) (fs : list FieldInfo)
  : list (string * JSON) * list ErrorDetails :=
  match fs with
  | [] => ([], [])
  | f :: rest =>
      let (vals, errs) := validate_fields body rest in
      match validate_field body f with
      | inl v => ((name f, v) :: vals, errs)
      | inr es => (vals, (es ++ errs)%list)
      end
  end.

(** [Model.model_validate(body)]: the field values of the instance, in
    declaration order, or the non-empty list of errors.  A body that is
    [null] is reported by the framework as a missing body. *)
Definition model_validate (fs : list FieldInfo) (body : JSON)
  : list (string * JSON) + list ErrorDetails :=
  match body with
  | JObj kv =>
      match validate_fields kv fs with
      | (vals, []) => inl vals
      | (_, errs) => inr errs
      end
  | JNull => inr [mkError missing [LKey "body"] JNull]
  | _ => inr [mkError model_attributes_type [LKey "body"] body]
  end.

End Validation.

(** Float literals of the source: [m * 2^e], exactly representable; and
    [0.1], which is the binary64 number nearest to one tenth. *)
Definition float_lit (m e : Z) : float := binary_normalize prec64 emax64 m e false.

Definition f_0_0 : float := Eval cbv in float_lit 0 0.
Definition f_0_1 : float := S754_finite false 7205759403792794 (-56).
Definition f_0_5 : float := Eval cbv in float_lit 1 (-1).
Definition f_1_5 : float := Eval cbv in float_lit 3 (-1).
Definition f_2_0 : float := Eval cbv in float_lit 2 0.
Definition f_5_0 : float := Eval cbv in float_lit 5 0.
Definition f_10_0 : float := Eval cbv in float_lit 10 0.
Definition f_30_0 : float := Eval cbv in float_lit 30 0.
Definition f_100_0 : float := Eval cbv in float_lit 100 0.
Definition f_neg_100_0 : float := Eval cbv in float_lit (-100) 0.

(** [pattern="^(all|upper|middle|lower)$"] *)
Definition bbPosition_pattern : Regex.regex :=
  Regex.Alt (Regex.lit "all")
    (Regex.Alt (Regex.lit "upper")
       (Regex.Alt (Regex.lit "middle") (Regex.lit "lower"))).

Definition bool_field (n : string) (d : bool) : FieldInfo :=
  mkField n TBool (Some (JBool d)).

(** [class ScreeningRequest(BaseModel)], field by field. *)
Definition ScreeningRequest : list FieldInfo :=
  [ mkField "appKey" (TStr None) None;
    mkField "appSecret" (TStr None) None;
    bool_field "isProduction" false;
    (* moving averages *)
    bool_field "ma60Enabled" false;
    mkField "ma60Min" (TInt (Some 0) (Some 200)) (Some (JInt 95));
    mkField "ma60Max" (TInt (Some 0) (Some 200)) (Some (JInt 105));
    bool_field "ma112Enabled" true;
    mkField "ma112Min" (TInt (Some 0) (Some 200)) (Some (JInt 95));
    mkField "ma112Max" (TInt (Some 0) (Some 200)) (Some (JInt 105));
    bool_field "ma224Enabled" false;
    mkField "ma224Min" (TInt (Some 0) (Some 200)) (Some (JInt 95));
    mkField "ma224Max" (TInt (Some 0) (Some 200)) (Some (JInt 105));
    (* Bollinger bands *)
    bool_field "bbEnabled" false;
    mkField "bbPeriod" (TInt (Some 5) (Some 100)) (Some (JInt 20));
    mkField "bbMultiplier" (TFloat (Some f_0_5) (Some f_5_0)) (Some (JFloat f_2_0));
    mkField "bbPosition" (TStr (Some bbPosition_pattern)) (Some (JStr "all"));
    bool_field "bbUpperBreak" false;
    bool_field "bbLowerBreak" false;
    (* volume *)
    bool_field "volumeEnabled" false;
    mkField "volumeMultiple" (TFloat (Some f_0_1) (Some f_10_0)) (Some (JFloat f_1_5));
    (* price change *)
    bool_field "priceChangeEnabled" false;
    mkField "priceChangeMin" (TFloat (Some f_neg_100_0) (Some f_100_0))
      (Some (JFloat f_neg_100_0));
    mkField "priceChangeMax" (TFloat (Some f_neg_100_0) (Some f_100_0))
      (Some (JFloat f_100_0));
    (* exclusions *)
    bool_field "excludeETF" true;
    bool_field "excludeETN" true;
    bool_field "excludeManagement" false;
    (* market capitalisation *)
    bool_field "marketCapEnabled" false;
    mkField "marketCapMin" (TInt (Some 0) None) (Some (JInt 0));
    mkField "marketCapMax" (TInt (Some 0) None) (Some (JInt 1000000000000));
    (* price/earnings *)
    bool_field "perEnabled" false;
    mkField "perMin" (TFloat (Some f_0_0) None) (Some (JFloat f_0_0));
    mkField "perMax" (TFloat (Some f_0_0) None) (Some (JFloat f_30_0));
    (* moving-average alignment *)
    bool_field "maAlignment" false;
    (* target stock codes; empty means all *)
    mkField "targetCodes" TListStr (Some (JArr [])) ].

(** [class CredentialsRequest(BaseModel)] *)
Definition CredentialsRequest : list FieldInfo :=
  [ mkField "appKey" (TStr None) None;
    mkField "appSecret" (TStr None) None ].

(** [request.field] on a validated instance. *)
Definition getattr (request : list (string * JSON)) (field : string) : JSON :=
  match dict_lookup field request with Some v => v | None => JNull end.

(** [request.model_dump()] *)
Definition model_dump (request : list (string * JSON)) : JSON := JObj request.

(** *** Serialised validation errors *)

Definition error_type_name (k : ErrorKind) : string :=
  match k with
  | missing => "missing"
  | string_type => "string_type"
  | bool_type => "bool_type"
  | int_type => "int_type"
  | float_type => "float_type"
  | list_type => "list_type"
  | model_attributes_type => "model_attributes_type"
  | bool_parsing => "bool_parsing"
  | int_parsing => "int_parsing"
  | int_from_float => "int_from_float"
  | finite_number => "finite_number"
  | float_parsing => "float_parsing"
  | greater_than_equal => "greater_than_equal"
  | less_than_equal => "less_than_equal"
  | string_pattern_mismatch => "string_pattern_mismatch"
  end.

Definition loc_json (i : LocItem) : JSON :=
  match i with
  | LKey k => JStr k
  | LIdx n => JInt (Z.of_nat n)
  end.

(** One item of the error list as it is serialised (its human-readable
    message is left out). *)
Definition error_json (e : ErrorDetails) : JSON :=
  JObj [ ("type", JStr (error_type_name (err_type e)));
         ("loc", JArr (map loc_json (loc e)));
         ("input", input e) ].

(** ** The gateway's environment and effects *)

Inductive Method : Type := GET | POST.

(** One request sent through [httpx.AsyncClient(timeout=...)]. *)
Record HttpCall : Type := mkCall {
  method : Method;
  url : string;
  json : option JSON;
  headers : list (string * string);
  timeout : float
}.

(** What the handlers read of an [httpx.Response]. *)
Record Response : Type := mkResponse {
  status_code : Z;
  text : string
}.

(** Exception classes the [except] clauses tell apart.  The first four
    are the subclasses of [httpx.TimeoutException]. *)
Inductive ExcClass : Type :=
| httpx_ConnectTimeout
| httpx_ReadTimeout
| httpx_WriteTimeout
| httpx_PoolTimeout
| httpx_ConnectError
| httpx_ReadError
| httpx_WriteError
| httpx_CloseError
| httpx_ProtocolError
| py_Exception (cls : string).

(** What can be raised: an exception of one of these classes, with its
    message; [fastapi.HTTPException]; and the framework's
    [RequestValidationError] for a body that fails validation. *)
Inductive exn : Type :=
| Exc (cls : ExcClass) (msg : string)
| HTTPException (status_code : Z) (detail : JSON)
| RequestValidationError (errors : list ErrorDetails).

Definition isinstance_TimeoutException (e : exn) : bool :=
  match e with
  | Exc (httpx_ConnectTimeout | httpx_ReadTimeout
        | httpx_WriteTimeout | httpx_PoolTimeout) _ => true
  | _ => false
  end.

Definition isinstance_ConnectError (e : exn) : bool :=
  match e with
  | Exc httpx_ConnectError _ => true
  | _ => false
  end.

Definition isinstance_HTTPException (e : exn) : bool :=
  match e with
  | HTTPException _ _ => true
  | _ => false
  end.

(** What becomes of a request sent downstream: a response, or an
    exception raised by the client. *)
Inductive Outcome : Type :=
| Responds (r : Response)
| Fails (cls : ExcClass) (msg : string).

Inductive FileState : Type :=
| Absent
| Readable (content : string)
| Unreadable (cls : ExcClass) (msg : string).

Inductive LogLevel : Type := INFO | WARNING | ERROR.

(** What a run leaves behind, in order: the requests sent downstream and
    the log records. *)
Inductive Event : Type :=
| Sent (c : HttpCall)
| Logged (level : LogLevel) (msg : string).

(** Everything outside the process.  [downstream n c] is what happens to
    the request [c] when [n] requests were sent before it.  The text of the
    clock and the messages of the exceptions raised by the client and by the
    file system hold no lone surrogate. *)
Record World : Type := mkWorld {
  getenv : string -> option string;
  downstream : nat -> HttpCall -> Outcome;
  now_isoformat : string;
  file : string -> FileState;
  now_message : has_surrogate now_isoformat = false;
  downstream_message :
    forall n c cls msg, downstream n c = Fails cls msg -> has_surrogate msg = false;
  file_message :
    forall p cls msg, file p = Unreadable cls msg -> has_surrogate msg = false
}.

Definition is_sent (e : Event) : bool :=
  match e with Sent _ => true | Logged _ _ => false end.

Definition sent (tr : list Event) : list Event := filter is_sent tr.

Inductive result (A : Type) : Type :=
| Returns (a : A)
| Raises (e : exn).
Arguments Returns {A} a.
Arguments Raises {A} e.

(** Computations of the handlers: they read the world, extend the trace,
    and return or raise. *)
Definition M (A : Type) : Type := World -> list Event -> result A * list Event.

Definition ret {A} (a : A) : M A := fun _ tr => (Returns a, tr).

Definition bind {A B} (m : M A) (k : A -> M B) : M B :=
  fun w tr =>
    match m w tr with
    | (Returns a, tr') => k a w tr'
    | (Raises e, tr') => (Raises e, tr')
    end.

Definition raise {A} (e : exn) : M A := fun _ tr => (Raises e, tr).

(** [try: m  except ... as e: h e] *)
Definition try_except {A} (m : M A) (h : exn -> M A) : M A :=
  fun w tr =>
    match m w tr with
    | (Returns a, tr') => (Returns a, tr')
    | (Raises e, tr') => h e w tr'
    end.

Definition world : M World := fun w tr => (Returns w, tr).

Definition emit (e : Event) : M unit := fun _ tr => (Returns tt, (tr ++ [e])%list).

Declare Scope gateway_scope.
Delimit Scope gateway_scope with gw.
Notation "x <- m ;; k" := (bind m (fun x => k))
  (at level 61, m at next level, right associativity) : gateway_scope.
Notation "m ;; k" := (bind m (fun _ => k))
  (at level 61, right associativity) : gateway_scope.
Local Open Scope gateway_scope.

Definition logger (level : LogLevel) (msg : string) : M unit :=
  emit (Logged level msg).

(** [await client.get(...)] / [await client.post(...)]: one attempt. *)
Definition client_send (c : HttpCall) : M Response :=
  fun w tr =>
    let tr' := (tr ++ [Sent c])%list in
    match downstream w (length (sent tr)) c with
    | Responds r => (Returns r, tr')
    | Fails cls msg => (Raises (Exc cls msg), tr')
    end.

Definition datetime_now_isoformat : M string :=
  w <- world ;; ret (now_isoformat w).

(** [KOTLIN_SERVICE_URL = os.getenv("KOTLIN_SERVICE_URL", "http://kotlin-screener:8080")] *)
Definition KOTLIN_SERVICE_URL : M string :=
  w <- world ;;
  ret (match getenv w "KOTLIN_SERVICE_URL" with
       | Some u => u
       | None => "http://kotlin-screener:8080"
       end).

Definition type_name (v : JSON) : string :=
  match v with
  | JNull => "NoneType"
  | JBool _ => "bool"
  | JInt _ => "int"
  | JFloat _ => "float"
  | JStr _ => "str"
  | JArr _ => "list"
  | JObj _ => "dict"
  end.

Definition f_300_0 : float := Eval cbv in float_lit 300 0.

Section Handlers.
Context {rt : Runtime}.

(** [str(v)]: fixed for the scalar cases, the runtime's for the rest. *)
Definition str (v : JSON) : string :=
  match v with
  | JNull => "None"
  | JBool b => str_of_bool b
  | JInt n => str_of_Z n
  | JStr s => s
  | _ => py_str v
  end.

(** [str(e)]: the message; for an [HTTPException], status and detail. *)
Definition str_exn (e : exn) : string :=
  match e with
  | Exc _ msg => msg
  | HTTPException sc d => str_of_Z sc ++ ": " ++ str d
  | RequestValidationError errors => py_str (JArr (map error_json errors))
  end.

(** [response.json()] *)
Definition response_json (r : Response) : M JSON :=
  match json_loads (text r) with
  | inl v => ret v
  | inr msg => raise (Exc (py_Exception "JSONDecodeError") msg)
  end.

(** [v.get(k, d)]: a method of [dict] only. *)
Definition dot_get (v : JSON) (k : string) (d : JSON) : M JSON :=
  match v with
  | JObj kv => ret (match dict_lookup k kv with Some x => x | None => d end)
  | _ => raise (Exc (py_Exception "AttributeError")
                  ("'" ++ type_name v ++ "' object has no attribute 'get'"))
  end.

(** [HTTPException(status_code=sc, detail=detail)]: a [detail] that is
    [None] is replaced by the phrase of the status, and the look-up of the
    phrase raises [ValueError] for a status that [http.HTTPStatus] does not
    list. *)
Definition new_HTTPException (sc : Z) (detail : JSON) : M exn :=
  match detail with
  | JNull =>
      match status_phrase sc with
      | Some phrase => ret (HTTPException sc (JStr phrase))
      | None => raise (Exc (py_Exception "ValueError")
                         (str_of_Z sc ++ " is not a valid HTTPStatus"))
      end
  | _ => ret (HTTPException sc detail)
  end.

(** [raise HTTPException(status_code=sc, detail=detail)] *)
Definition raise_HTTPException {A} (sc : Z) (detail : JSON) : M A :=
  e <- new_HTTPException sc detail ;; raise e.

(** *** Routes *)

(** The page [root] answers with: a file's content, or the built-in page
    saying that the HTML file was not found. *)
Inductive Html : Type :=
| FileContent (content : string)
| NotFoundPage.

Definition html_paths : list string :=
  [ "./stock_screener.html"; "../stock_screener.html" ].

Fixpoint root_from (paths : list string) : M Html :=
  match paths with
  | [] => ret NotFoundPage
  | html_path :: rest =>
      w <- world ;;
      match file w html_path with
      | Absent => root_from rest
      | Readable html_content =>
          logger INFO ("Serving HTML from: " ++ html_path) ;;
          ret (FileContent html_content)
      | Unreadable cls msg => raise (Exc cls msg)
      end
  end.

(** [GET /] *)
Definition root : M Html := root_from html_paths.

(** [GET /api] *)
Definition api_info : M JSON :=
  ts <- datetime_now_isoformat ;;
  ret (JObj [ ("service", JStr "Stock Hunter API Gateway");
              ("version", JStr "1.0.0");
              ("status", JStr "running");
              ("timestamp", JStr ts) ]).

(** [GET /health] *)
Definition health_check : M JSON :=
  kotlin_healthy <-
    try_except
      (base <- KOTLIN_SERVICE_URL ;;
       response <- client_send (mkCall GET (base ++ "/health") None [] f_5_0) ;;
       ret (status_code response =? 200))
      (fun e =>
         logger WARNING ("Kotlin service health check failed: " ++ str_exn e) ;;
         ret false) ;;
  ts <- datetime_now_isoformat ;;
  ret (JObj [ ("status", JStr (if kotlin_healthy then "healthy" else "degraded"));
              ("services",
                JObj [ ("gateway", JStr "healthy");
                       ("kotlin_screener",
                         JStr (if kotlin_healthy then "healthy" else "unhealthy")) ]);
              ("timestamp", JStr ts) ]).

Definition HTTP_500_INTERNAL_SERVER_ERROR : Z := 500.
Definition HTTP_503_SERVICE_UNAVAILABLE : Z := 503.
Definition HTTP_504_GATEWAY_TIMEOUT : Z := 504.

Definition screen_timeout_detail : string :=
  "스크리닝 요청 시간 초과. 잠시 후 다시 시도해주세요.".
Definition screen_connect_detail : string :=
  "스크리닝 서비스에 연결할 수 없습니다.".

(** [POST /api/v1/screen], on a validated [ScreeningRequest]. *)
Definition screen_stocks (request : list (string * JSON)) : M JSON :=
  try_except
    (logger INFO ("Received screening request - MA112: "
                  ++ str (getattr request "ma112Enabled")
                  ++ ", BB: " ++ str (getattr request "bbEnabled")) ;;
     base <- KOTLIN_SERVICE_URL ;;
     response <- client_send
                   (mkCall POST (base ++ "/api/v1/screen")
                      (Some (model_dump request))
                      [("Content-Type", "application/json")] f_300_0) ;;
     if negb (status_code response =? 200) then
       error_detail <- (if String.eqb (text response) ""
                        then ret (JObj [("error", JStr "Unknown error")])
                        else response_json response) ;;
       logger ERROR ("Kotlin service error: " ++ str error_detail) ;;
       raise_HTTPException (status_code response) error_detail
     else
       result <- response_json response ;;
       matched <- dot_get result "matchedCount" (JInt 0) ;;
       logger INFO ("Screening completed: " ++ str matched ++ " matches") ;;
       ret result)
    (fun e =>
       if isinstance_TimeoutException e then
         logger ERROR "Request to Kotlin service timed out" ;;
         raise_HTTPException HTTP_504_GATEWAY_TIMEOUT (JStr screen_timeout_detail)
       else if isinstance_ConnectError e then
         logger ERROR "Cannot connect to Kotlin service" ;;
         raise_HTTPException HTTP_503_SERVICE_UNAVAILABLE (JStr screen_connect_detail)
       else if isinstance_HTTPException e then
         raise e
       else
         logger ERROR ("Unexpected error during screening: " ++ str_exn e) ;;
         raise_HTTPException HTTP_500_INTERNAL_SERVER_ERROR
           (JStr ("스크리닝 중 오류 발생: " ++ str_exn e))).

(** [POST /api/v1/validate-credentials], on a validated
    [CredentialsRequest]. *)
Definition validate_credentials (request : list (string * JSON)) : M JSON :=
  try_except
    (logger INFO "Validating API credentials" ;;
     base <- KOTLIN_SERVICE_URL ;;
     response <- client_send
                   (mkCall POST (base ++ "/api/v1/validate-credentials")
                      (Some (JObj [ ("appKey", getattr request "appKey");
                                    ("appSecret", getattr request "appSecret") ]))
                      [] f_10_0) ;;
     result <- response_json response ;;
     if status_code response =? 200 then
       logger INFO "Credentials validated successfully" ;;
       ret (JObj [ ("valid", JBool true); ("message", JStr "인증 성공") ])
     else
       logger WARNING "Invalid credentials" ;;
       message <- dot_get result "message" (JStr "인증 실패") ;;
       ret (JObj [ ("valid", JBool false); ("message", message) ]))
    (fun e =>
       logger ERROR ("Credential validation error: " ++ str_exn e) ;;
       raise_HTTPException HTTP_500_INTERNAL_SERVER_ERROR
         (JStr ("인증 검증 중 오류 발생: " ++ str_exn e))).

Definition stock_codes_failed_detail : string := "종목 코드 조회 실패".

(** [GET /api/v1/stock-codes] *)
Definition get_stock_codes : M JSON :=
  try_except
    (base <- KOTLIN_SERVICE_URL ;;
     response <- client_send
                   (mkCall GET (base ++ "/api/v1/stock-codes") None [] f_5_0) ;;
     if negb (status_code response =? 200) then
       raise_HTTPException (status_code response) (JStr stock_codes_failed_detail)
     else
       response_json response)
    (fun e =>
       logger ERROR ("Error fetching stock codes: " ++ str_exn e) ;;
       raise_HTTPException HTTP_500_INTERNAL_SERVER_ERROR
         (JStr ("종목 코드 조회 중 오류 발생: " ++ str_exn e))).

(** *** Responses and exception handlers *)

Inductive Content : Type :=
| JSONContent (j : JSON)
| HTMLContent (h : Html).

(** What the client receives. *)
Record HttpResponse : Type := mkHttpResponse {
  status : Z;
  content : Content
}.

(** The exception of a content that cannot be rendered: [json.dumps]
    raises [ValueError] for an infinite number or a NaN; the encoding of
    its result raises [UnicodeEncodeError] for a lone surrogate. *)
Definition render_error (c : JSON) : exn :=
  if json_finite c
  then Exc (py_Exception "UnicodeEncodeError") (encode_error c)
  else Exc (py_Exception "ValueError")
         "Out of range float values are not JSON compliant".

(** [JSONResponse(status_code=sc, content=c)].  The body is rendered when
    the response is built, as
    [json.dumps(c, ensure_ascii=False, allow_nan=False).encode("utf-8")]. *)
Definition JSONResponse (sc : Z) (c : JSON) : M HttpResponse :=
  if json_compliant c then ret (mkHttpResponse sc (JSONContent c))
  else raise (render_error c).

(** [@app.exception_handler(HTTPException)] *)
Definition http_exception_handler (sc : Z) (detail : JSON) : M HttpResponse :=
  ts <- datetime_now_isoformat ;;
  JSONResponse sc (JObj [ ("error", detail); ("timestamp", JStr ts) ]).

(** [@app.exception_handler(Exception)] *)
Definition general_exception_handler (exc : exn) : M HttpResponse :=
  logger ERROR ("Unhandled exception: " ++ str_exn exc) ;;
  ts <- datetime_now_isoformat ;;
  JSONResponse HTTP_500_INTERNAL_SERVER_ERROR
    (JObj [ ("error", JStr "Internal server error");
            ("detail", JStr (str_exn exc));
            ("timestamp", JStr ts) ]).

Definition HTTP_422_UNPROCESSABLE_ENTITY : Z := 422.

(** The framework's handler for a body that fails validation; the gateway
    registers none of its own. *)
Definition request_validation_exception_handler (errors : list ErrorDetails)
  : M HttpResponse :=
  JSONResponse HTTP_422_UNPROCESSABLE_ENTITY
    (JObj [ ("detail", JArr (map error_json errors)) ]).

End Handlers.

(** ** The application *)

(** A request to one of the declared routes; the two [POST] routes carry
    the decoded JSON body. *)
Inductive Request : Type :=
| GET_root
| GET_api
| GET_health
| POST_screen (body : JSON)
| POST_validate_credentials (body : JSON)
| GET_stock_codes.

Section Application.
Context {lax : LaxConversions} {rt : Runtime}.

(** A route whose endpoint returns a value: it is rendered as JSON with
    status 200. *)
Definition json_route (endpoint : M JSON) : M HttpResponse :=
  a <- endpoint ;; JSONResponse 200 a.

Definition html_route (endpoint : M Html) : M HttpResponse :=
  h <- endpoint ;; ret (mkHttpResponse 200 (HTMLContent h)).

(** A [POST] route: the body is validated against the model before the
    endpoint runs. *)
Definition with_body (model : list FieldInfo) (body : JSON)
    (endpoint : list (string * JSON) -> M JSON) : M HttpResponse :=
  match model_validate model body with
  | inl request => json_route (endpoint request)
  | inr errors => raise (RequestValidationError errors)
  end.

Definition router (req : Request) : M HttpResponse :=
  match req with
  | GET_root => html_route root
  | GET_api => json_route api_info
  | GET_health => json_route health_check
  | POST_screen body => with_body ScreeningRequest body screen_stocks
  | POST_validate_credentials body =>
      with_body CredentialsRequest body validate_credentials
  | GET_stock_codes => json_route get_stock_codes
  end.

(** The handlers registered for exception classes other than [Exception]:
    an exception of such a class is turned into the handler's response,
    any other exception passes through. *)
Definition exception_middleware (inner : M HttpResponse) : M HttpResponse :=
  try_except inner
    (fun e =>
       match e with
       | HTTPException sc detail => http_exception_handler sc detail
       | RequestValidationError errors =>
           request_validation_exception_handler errors
       | Exc _ _ => raise e
       end).

(** The outermost layer: what is still an exception there, one raised by
    a handler of the inner layer included, goes to the handler registered
    for [Exception]. *)
Definition server_error_middleware (inner : M HttpResponse) : M HttpResponse :=
  try_except inner general_exception_handler.

Definition app (req : Request) : M HttpResponse :=
  server_error_middleware (exception_middleware (router req)).

End Application.

(** ** Sample instances, used to run the model on concrete inputs *)

(** No lax conversion applies: inputs must already have the annotated type. *)
Definition no_conversion : LaxConversions :=
  {| lax_bool := fun _ => None;
     lax_int := fun _ => None;
     lax_float := fun _ => None |}.

Definition dquote : string := String (Ascii.ascii_of_nat 34) "".

(** The text [{"message": "expired"}]. *)
Definition message_expired_text : string :=
  "{" ++ dquote ++ "message" ++ dquote ++ ": " ++ dquote ++ "expired" ++ dquote ++ "}".

(** A decoder that knows a few documents and rejects every other text,
    the empty one included. *)
Definition sample_json_loads (s : string) : JSON + string :=
  if String.eqb s "{}" then inl (JObj [])
  else if String.eqb s "[]" then inl (JArr [])
  else if String.eqb s "null" then inl JNull
  else if String.eqb s message_expired_text
       then inl (JObj [("message", JStr "expired")])
  else inr "Expecting value: line 1 column 1 (char 0)".

(** Some members of [http.HTTPStatus]. *)
Definition sample_status_phrase (sc : Z) : option string :=
  match sc with
  | 400 => Some "Bad Request"
  | 401 => Some "Unauthorized"
  | 403 => Some "Forbidden"
  | 404 => Some "Not Found"
  | 429 => Some "Too Many Requests"
  | 500 => Some "Internal Server Error"
  | 502 => Some "Bad Gateway"
  | 503 => Some "Service Unavailable"
  | 504 => Some "Gateway Timeout"
  | _ => None
  end.

Definition sample_json_loads_message s msg :
  sample_json_loads s = inr msg -> has_surrogate msg = false :=
  fun H =>
    match String.eqb s "{}" as b1, String.eqb s "[]" as b2,
          String.eqb s "null" as b3, String.eqb s message_expired_text as b4
          return (if b1 then inl (JObj [])
                  else if b2 then inl (JArr [])
                  else if b3 then inl JNull
                  else if b4 then inl (JObj [("message", JStr "expired")])
                  else inr "Expecting value: line 1 column 1 (char 0)") = inr msg ->
                 has_surrogate msg = false
    with
    | false, false, false, false =>
        fun E => match E in _ = r
                       return match r with
                              | inr m => has_surrogate m = false
                              | inl _ => True
                              end
                 with eq_refl => eq_refl end
    | true, _, _, _ => fun E => match E with eq_refl => I end
    | false, true, _, _ => fun E => match E with eq_refl => I end
    | false, false, true, _ => fun E => match E with eq_refl => I end
    | false, false, false, true => fun E => match E with eq_refl => I end
    end H.

Definition sample_runtime : Runtime :=
  {| json_loads := sample_json_loads;
     py_str := fun _ => "{...}";
     status_phrase := sample_status_phrase;
     encode_error := fun _ =>
       "'utf-8' codec can't encode character: surrogates not allowed";
     json_loads_message := sample_json_loads_message;
     encode_error_message := fun _ => eq_refl |}.

(** What a sample world makes of an outcome: an exception whose message
    holds a lone surrogate loses its message. *)
Definition sample_outcome (o : Outcome) : Outcome :=
  match o with
  | Fails cls msg => if has_surrogate msg then Fails cls "" else o
  | Responds _ => o
  end.

Definition sample_outcome_message o cls msg :
  sample_outcome o = Fails cls msg -> has_surrogate msg = false :=
  match o as o0 return sample_outcome o0 = Fails cls msg -> has_surrogate msg = false with
  | Responds r => fun E => match E in _ = x
                                 return match x with
                                        | Fails _ m => has_surrogate m = false
                                        | Responds _ => True
                                        end
                           with eq_refl => I end
  | Fails cls0 msg0 =>
      (if has_surrogate msg0 as b
          return has_surrogate msg0 = b ->
                 (if b then Fails cls0 "" else Fails cls0 msg0) = Fails cls msg ->
                 has_surrogate msg = false
       then fun _ E => match E in _ = x
                             return match x with
                                    | Fails _ m => has_surrogate m = false
                                    | Responds _ => True
                                    end
                       with eq_refl => eq_refl end
       else fun Hb E => match E in _ = x
                              return match x with
                                     | Fails _ m => has_surrogate m = false
                                     | Responds _ => True
                                     end
                        with eq_refl => Hb end) eq_refl
  end.

(** A world whose downstream engine answers every request with [o]. *)
Definition world_answering (o : Outcome) : World :=
  {| getenv := fun _ => None;
     downstream := fun _ _ => sample_outcome o;
     now_isoformat := "2024-01-01T00:00:00";
     file := fun _ => Absent;
     now_message := eq_refl;
     downstream_message := fun _ _ => sample_outcome_message o;
     file_message := fun _ cls msg E =>
       match E in _ = x
             return match x with
                    | Unreadable _ m => has_surrogate m = false
                    | _ => True
                    end
       with eq_refl => I end |}.

Definition body_bbPeriod_3 : list (string * JSON) :=
  [ ("appKey", JStr "key"); ("appSecret", JStr "secret"); ("bbPeriod", JInt 3) ].

Definition body_ma60Min_500 : list (string * JSON) :=
  [ ("appKey", JStr "key"); ("appSecret", JStr "secret");
    ("ma60Enabled", JBool true); ("ma60Min", JInt 500) ].

(** What [json.loads] makes of the literal [1e999]. *)
Definition f_inf : float := S754_infinity false.

Definition body_bbMultiplier_1e999 : list (string * JSON) :=
  [ ("appKey", JStr "key"); ("appSecret", JStr "secret");
    ("bbMultiplier", JFloat f_inf) ].

(** ** Notions used to state the properties *)

(** The value an input stands for lies strictly beyond a declared [ge] or
    [le] bound of the field. *)
Definition out_of_bound {lax : LaxConversions} (t : FieldType) (v : JSON) : bool :=
  match t with
  | TInt ge le =>
      match as_int v with
      | Some n =>
          match ge with Some b => n <? b | None => false end
          || match le with Some b => b <? n | None => false end
      | None => false
      end
  | TFloat ge le =>
      match as_float v with
      | Some x =>
          match ge with Some b => fltb x b | None => false end
          || match le with Some b => fltb b x | None => false end
      | None => false
      end
  | _ => false
  end.

Definition bbPosition_values : list string := ["all"; "upper"; "middle"; "lower"].

(** The body [kv] of a screen request holds, under the key [fname], a
    value outside the bound declared for that field. *)
Inductive OutOfBound {lax : LaxConversions} (kv : list (string * JSON))
    (fname : string) : Prop :=
| oob_range f v :
    In f ScreeningRequest -> name f = fname ->
    dict_lookup fname kv = Some v ->
    out_of_bound (annotation f) v = true ->
    OutOfBound kv fname
| oob_position s :
    fname = "bbPosition" ->
    dict_lookup "bbPosition" kv = Some (JStr s) ->
    ~ In s bbPosition_values ->
    OutOfBound kv fname.

(** The enable flags of the filter families. *)
Definition family_flags : list string :=
  [ "ma60Enabled"; "ma112Enabled"; "ma224Enabled"; "bbEnabled";
    "volumeEnabled"; "priceChangeEnabled"; "marketCapEnabled"; "perEnabled" ].

(** The body after setting the listed flags, one after the other. *)
Definition set_flags (flags : list (string * bool)) (kv : list (string * JSON))
  : list (string * JSON) :=
  fold_right (fun kb acc => dict_set (fst kb) (JBool (snd kb)) acc) kv flags.

(** Some error of the list is located at the field [fname] of the body. *)
Definition names_field (errors : list ErrorDetails) (fname : string) : Prop :=
  exists e, In e errors /\ loc e = [LKey "body"; LKey fname].

(** The serialised error list has an item located at [fname]. *)
Definition detail_names_field (detail : JSON) (fname : string) : Prop :=
  exists items item,
    detail = JArr items /\ In (JObj item) items
    /\ dict_lookup "loc" item = Some (JArr [JStr "body"; JStr fname]).

(** The body that carries the two credentials and nothing else. *)
Definition minimal_body (k s : string) : JSON :=
  JObj [ ("appKey", JStr k); ("appSecret", JStr s) ].

(** The instance built from [minimal_body k s], as [model_dump] shows it. *)
Definition screening_defaults (k s : string) : list (string * JSON) :=
  [ ("appKey", JStr k); ("appSecret", JStr s); ("isProduction", JBool false);
    ("ma60Enabled", JBool false); ("ma60Min", JInt 95); ("ma60Max", JInt 105);
    ("ma112Enabled", JBool true); ("ma112Min", JInt 95); ("ma112Max", JInt 105);
    ("ma224Enabled", JBool false); ("ma224Min", JInt 95); ("ma224Max", JInt 105);
    ("bbEnabled", JBool false); ("bbPeriod", JInt 20);
    ("bbMultiplier", JFloat f_2_0); ("bbPosition", JStr "all");
    ("bbUpperBreak", JBool false); ("bbLowerBreak", JBool false);
    ("volumeEnabled", JBool false); ("volumeMultiple", JFloat f_1_5);
    ("priceChangeEnabled", JBool false);
    ("priceChangeMin", JFloat f_neg_100_0); ("priceChangeMax", JFloat f_100_0);
    ("excludeETF", JBool true); ("excludeETN", JBool true);
    ("excludeManagement", JBool false);
    ("marketCapEnabled", JBool false);
    ("marketCapMin", JInt 0); ("marketCapMax", JInt 1000000000000);
    ("perEnabled", JBool false); ("perMin", JFloat f_0_0); ("perMax", JFloat f_30_0);
    ("maAlignment", JBool false); ("targetCodes", JArr []) ].

Definition is_required (f : FieldInfo) : bool :=
  match default f with None => true | Some _ => false end.

(** The request [screen_stocks] sends for a validated instance. *)
Definition screen_call (w : World) (request : list (string * JSON)) : HttpCall :=
  mkCall POST
    (match getenv w "KOTLIN_SERVICE_URL" with
     | Some u => u
     | None => "http://kotlin-screener:8080"
     end ++ "/api/v1/screen")
    (Some (model_dump request))
    [("Content-Type", "application/json")] f_300_0.

(** The request [validate_credentials] sends for a validated instance. *)
Definition credentials_call (w : World) (request : list (string * JSON)) : HttpCall :=
  mkCall POST
    (match getenv w "KOTLIN_SERVICE_URL" with
     | Some u => u
     | None => "http://kotlin-screener:8080"
     end ++ "/api/v1/validate-credentials")
    (Some (JObj [ ("appKey", getattr request "appKey");
                  ("appSecret", getattr request "appSecret") ]))
    [] f_10_0.

Definition json_response (sc : Z) (c : JSON) : HttpResponse :=
  mkHttpResponse sc (JSONContent c).

(** The error envelope of the gateway's [HTTPException] handler. *)
Definition error_envelope (detail : JSON) (w : World) : JSON :=
  JObj [ ("error", detail); ("timestamp", JStr (now_isoformat w)) ].

(** The request [health_check] and [get_stock_codes] send to [path]. *)
Definition get_call (w : World) (path : string) : HttpCall :=
  mkCall GET
    (match getenv w "KOTLIN_SERVICE_URL" with
     | Some u => u
     | None => "http://kotlin-screener:8080"
     end ++ path)
    None [] f_5_0.

(** Whether the probe sent by a health request comes back with status 200. *)
Definition probe_returns_200 (w : World) (tr : list Event) : bool :=
  match downstream w (length (sent tr)) (get_call w "/health") with
  | Responds r => status_code r =? 200
  | Fails _ _ => false
  end.


Section RequestFacts.
Context {lax : LaxConversions}.


End RequestFacts.

(** The answer of the handler registered for [Exception]. *)
Definition internal_error_response (w : World) (msg : string) : HttpResponse :=
  mkHttpResponse 500
    (JSONContent (JObj [ ("error", JStr "Internal server error");
                         ("detail", JStr msg);
                         ("timestamp", JStr (now_isoformat w)) ])).

Definition not_json_compliant : string :=
  "Out of range float values are not JSON compliant".

(** The message of the exception of a content that cannot be rendered. *)
Definition render_error_message {rt : Runtime} (c : JSON) : string :=
  if json_finite c then encode_error c else not_json_compliant.

(** What the two middleware layers make of the outcome of an endpoint
    that returns JSON. *)
Definition answer {rt : Runtime} (w : World) (r : result JSON) : HttpResponse :=
  let rendered sc c :=
    if json_compliant c then mkHttpResponse sc (JSONContent c)
    else internal_error_response w (render_error_message c) in
  match r with
  | Returns a => rendered 200 a
  | Raises (HTTPException sc detail) => rendered sc (error_envelope detail w)
  | Raises (RequestValidationError errors) =>
      rendered 422 (JObj [("detail", JArr (map error_json errors))])
  | Raises (Exc _ msg) => internal_error_response w msg
  end.

(** The outcome of an endpoint that catches what its body raises: a value
    or an [HTTPException]. *)
Definition endpoint_outcome {A} (r : result A) : Prop :=
  match r with
  | Returns _ | Raises (HTTPException _ _) => True
  | Raises _ => False
  end.


(** No two of the listed names are equal. *)
Fixpoint unique_names (l : list string) : bool :=
  match l with
  | [] => true
  | x :: rest => negb (existsb (String.eqb x) rest) && unique_names rest
  end.

(** ** Summaries of the endpoints *)

Section Summaries.
Context {lax : LaxConversions} {rt : Runtime}.

(** What [screen_stocks] returns or raises, as a function of what becomes
    of its one request. *)
Definition screen_outcome (o : Outcome) : result JSON :=
  let unexpected msg :=
    Raises (HTTPException 500 (JStr ("스크리닝 중 오류 발생: " ++ msg))) in
  match o with
  | Fails cls msg =>
      if isinstance_TimeoutException (Exc cls msg)
      then Raises (HTTPException 504 (JStr screen_timeout_detail))
      else if isinstance_ConnectError (Exc cls msg)
      then Raises (HTTPException 503 (JStr screen_connect_detail))
      else unexpected msg
  | Responds r =>
      if status_code r =? 200 then
        match json_loads (text r) with
        | inl (JObj kv) => Returns (JObj kv)
        | inl v => unexpected ("'" ++ type_name v ++ "' object has no attribute 'get'")
        | inr msg => unexpected msg
        end
      else if String.eqb (text r) "" then
        Raises (HTTPException (status_code r) (JObj [("error", JStr "Unknown error")]))
      else
        match json_loads (text r) with
        | inl JNull =>
            match status_phrase (status_code r) with
            | Some phrase => Raises (HTTPException (status_code r) (JStr phrase))
            | None => unexpected (str_of_Z (status_code r)
                                  ++ " is not a valid HTTPStatus")
            end
        | inl detail => Raises (HTTPException (status_code r) detail)
        | inr msg => unexpected msg
        end
  end.

(** The same for [validate_credentials]. *)
Definition credentials_outcome (o : Outcome) : result JSON :=
  let failed msg :=
    Raises (HTTPException 500 (JStr ("인증 검증 중 오류 발생: " ++ msg))) in
  match o with
  | Fails cls msg => failed msg
  | Responds r =>
      match json_loads (text r) with
      | inr msg => failed msg
      | inl v =>
          if status_code r =? 200
          then Returns (JObj [ ("valid", JBool true); ("message", JStr "인증 성공") ])
          else
            match v with
            | JObj kv =>
                Returns (JObj [ ("valid", JBool false);
                                ("message",
                                  match dict_lookup "message" kv with
                                  | Some m => m
                                  | None => JStr "인증 실패"
                                  end) ])
            | _ => failed ("'" ++ type_name v ++ "' object has no attribute 'get'")
            end
      end
  end.

(** The same for [get_stock_codes]. *)
Definition stock_codes_outcome (o : Outcome) : result JSON :=
  let failed msg :=
    Raises (HTTPException 500 (JStr ("종목 코드 조회 중 오류 발생: " ++ msg))) in
  match o with
  | Fails cls msg => failed msg
  | Responds r =>
      if status_code r =? 200 then
        match json_loads (text r) with
        | inl v => Returns v
        | inr msg => failed msg
        end
      else failed (str_of_Z (status_code r) ++ ": " ++ stock_codes_failed_detail)
  end.

(** The requests a request to the gateway sends downstream. *)
Definition requests_of (w : World) (req : Request) : list Event :=
  match req with
  | GET_root | GET_api => []
  | GET_health => [Sent (get_call w "/health")]
  | GET_stock_codes => [Sent (get_call w "/api/v1/stock-codes")]
  | POST_screen body =>
      match model_validate ScreeningRequest body with
      | inl request => [Sent (screen_call w request)]
      | inr _ => []
      end
  | POST_validate_credentials body =>
      match model_validate CredentialsRequest body with
      | inl request => [Sent (credentials_call w request)]
      | inr _ => []
      end
  end.

End Summaries.

(** A value the annotated type takes as it is and that lies within the
    declared bounds. *)
Definition within_bounds (t : FieldType) (v : JSON) : bool :=
  match t, v with
  | TInt ge le, JInt n => ge_ok_Z ge n && le_ok_Z le n
  | TFloat ge le, JFloat x => ge_ok_float ge x && le_ok_float le x
  | _, _ => false
  end.

(** The integer fields of a screen request that are bounded on both
    sides, each with the least and the greatest value its declaration
    allows. *)
Definition integer_fields : list (string * (Z * Z)) :=
  [ ("ma60Min", (0, 200)); ("ma60Max", (0, 200));
    ("ma112Min", (0, 200)); ("ma112Max", (0, 200));
    ("ma224Min", (0, 200)); ("ma224Max", (0, 200));
    ("bbPeriod", (5, 100)) ].

Definition is_string (v : JSON) : bool :=
  match v with JStr _ => true | _ => false end.

(** A string that holds no lone surrogate. *)
Definition is_text (v : JSON) : bool :=
  match v with JStr s => negb (has_surrogate s) | _ => false end.

(** An error whose location and echoed input can be rendered. *)
Definition renderable_error (e : ErrorDetails) : bool :=
  json_compliant (input e) && forallb json_compliant (map loc_json (loc e)).

(** No field name holds a lone surrogate. *)
Definition plain_names (fs : list FieldInfo) : bool :=
  forallb (fun f => negb (has_surrogate (name f))) fs.

(** The characters of a string are all ASCII. *)
Fixpoint is_ascii (s : string) : bool :=
  match s with
  | EmptyString => true
  | String c rest => (N_of_ascii c <? 128)%N && is_ascii rest
  end.

(** The string holds no lone surrogate and does not end in the middle of
    one. *)
Fixpoint is_closed_text (s : string) : bool :=
  match s with
  | EmptyString => true
  | String c rest =>
      match rest with
      | EmptyString => negb (is_surrogate_lead c)
      | String d _ => negb (is_surrogate_lead c && is_surrogate_trail d)
      end && is_closed_text rest
  end.

Definition html_response (h : Html) : HttpResponse :=
  mkHttpResponse 200 (HTMLContent h).

(** * Properties *)

(** ** The pattern matcher decides the language of the pattern *)

Lemma nullable_correct r : Regex.nullable r = true <-> Regex.matches r "".
Proof.
  split.
  - induction r; simpl; intros H; try discriminate.
    + constructor.
    + apply andb_true_iff in H as [H1 H2].
      change "" with ("" ++ ""). constructor; auto.
    + apply orb_true_iff in H as [H | H].
      * apply Regex.m_alt_l; auto.
      * apply Regex.m_alt_r; auto.
  - intros H. remember "" as s eqn:Hs.
    induction H; simpl; subst; try discriminate; auto.
    + destruct s1; simpl in Hs; try discriminate. subst.
      rewrite IHmatches1, IHmatches2; auto.
    + rewrite IHmatches; auto.
    + rewrite IHmatches, orb_true_r; auto.
Qed.

Lemma deriv_sound c r s :
  Regex.matches (Regex.deriv c r) s -> Regex.matches r (String c s).
Proof.
  revert s. induction r; simpl; intros s H.
  - inversion H.
  - inversion H.
  - destruct (Ascii.eqb c c0) eqn:E.
    + apply Ascii.eqb_eq in E. subst. inversion H. constructor.
    + inversion H.
  - destruct (Regex.nullable r1) eqn:N.
    + inversion H; subst.
      * match goal with X : Regex.matches (Regex.Cat _ _) _ |- _ => inversion X; subst end.
        change (String c (s1 ++ s2)) with (String c s1 ++ s2).
        constructor; auto.
      * change (String c s) with ("" ++ String c s).
        constructor; auto. apply nullable_correct; auto.
    + inversion H; subst.
      change (String c (s1 ++ s2)) with (String c s1 ++ s2).
      constructor; auto.
  - inversion H; subst.
    + apply Regex.m_alt_l; auto.
    + apply Regex.m_alt_r; auto.
Qed.

Lemma deriv_complete c r s :
  Regex.matches r (String c s) -> Regex.matches (Regex.deriv c r) s.
Proof.
  intros H. remember (String c s) as cs eqn:Hcs. revert c s Hcs.
  induction H; intros c0 s0 Hcs; simpl; try discriminate.
  - inversion Hcs; subst. rewrite Ascii.eqb_refl. constructor.
  - destruct s1 as [| a s1'].
    + simpl in Hcs. subst.
      assert (N : Regex.nullable r1 = true) by (apply nullable_correct; auto).
      rewrite N. apply Regex.m_alt_r. apply IHmatches2; auto.
    + simpl in Hcs. inversion Hcs; subst.
      destruct (Regex.nullable r1).
      * apply Regex.m_alt_l. constructor; auto.
      * constructor; auto.
  - apply Regex.m_alt_l; auto.
  - apply Regex.m_alt_r; auto.
Qed.

Lemma fullmatch_correct r s : Regex.fullmatch r s = true <-> Regex.matches r s.
Proof.
  revert r. induction s as [| c s IH]; intros r; simpl.
  - apply nullable_correct.
  - rewrite IH. split; [apply deriv_sound | apply deriv_complete].
Qed.

Lemma matches_lit w s : Regex.matches (Regex.lit w) s <-> s = w.
Proof.
  revert s. induction w as [| c w IH]; intros s; simpl; split; intros H.
  - inversion H; auto.
  - subst. constructor.
  - inversion H; subst.
    match goal with X : Regex.matches (Regex.Chr _) _ |- _ => inversion X; subst end.
    simpl. f_equal. apply IH; auto.
  - subst. change (String c w) with (String c "" ++ w).
    constructor; [constructor | apply IH; auto].
Qed.

Lemma matches_alt r1 r2 s :
  Regex.matches (Regex.Alt r1 r2) s <-> Regex.matches r1 s \/ Regex.matches r2 s.
Proof.
  split.
  - intros H; inversion H; subst; auto.
  - intros [H | H]; [apply Regex.m_alt_l | apply Regex.m_alt_r]; auto.
Qed.

(** The strings [bbPosition] accepts are exactly the four position names. *)
Lemma bbPosition_pattern_language s :
  Regex.fullmatch bbPosition_pattern s = true
  <-> In s ["all"; "upper"; "middle"; "lower"].
Proof.
  rewrite fullmatch_correct. unfold bbPosition_pattern.
  rewrite !matches_alt, !matches_lit. simpl.
  intuition congruence.
Qed.

(** ** Text *)

Lemma has_surrogate_app a b :
  is_closed_text a = true -> has_surrogate (a ++ b) = has_surrogate b.
Proof.
  induction a as [| c a IH]; intros H; [reflexivity |].
  cbn [is_closed_text] in H. apply andb_true_iff in H as [Hc Ha].
  cbn [append has_surrogate]. rewrite (IH Ha).
  destruct a as [| d a']; cbn [append].
  - apply negb_true_iff in Hc. rewrite Hc. reflexivity.
  - apply negb_true_iff in Hc. rewrite Hc. reflexivity.
Qed.

Lemma closed_text_no_surrogate s :
  is_closed_text s = true -> has_surrogate s = false.
Proof.
  induction s as [| c s IH]; intros H; [reflexivity |].
  cbn [is_closed_text] in H. apply andb_true_iff in H as [Hc Hs].
  cbn [has_surrogate]. rewrite (IH Hs), orb_false_r.
  destruct s as [| d s']; [apply andb_false_r |].
  apply negb_true_iff in Hc. exact Hc.
Qed.

Lemma ascii_closed_text s : is_ascii s = true -> is_closed_text s = true.
Proof.
  induction s as [| c s IH]; intros H; [reflexivity |].
  cbn [is_ascii] in H. apply andb_true_iff in H as [Hc Hs].
  cbn [is_closed_text]. rewrite (IH Hs), andb_true_r.
  assert (Hl : is_surrogate_lead c = false).
  { unfold is_surrogate_lead. apply N.ltb_lt in Hc. apply N.eqb_neq. lia. }
  rewrite Hl. destruct s; reflexivity.
Qed.

Lemma uint_ascii d : is_ascii (NilEmpty.string_of_uint d) = true.
Proof. induction d; cbn [NilEmpty.string_of_uint is_ascii]; auto. Qed.

Lemma uint_or_zero_ascii d : is_ascii (NilZero.string_of_uint d) = true.
Proof.
  unfold NilZero.string_of_uint. destruct d; try reflexivity; apply uint_ascii.
Qed.

Lemma str_of_Z_ascii n : is_ascii (str_of_Z n) = true.
Proof.
  unfold str_of_Z, NilZero.string_of_int.
  destruct (Z.to_int n) as [d | d]; [apply uint_or_zero_ascii |].
  cbn [is_ascii]. rewrite uint_or_zero_ascii. reflexivity.
Qed.

Lemma str_of_Z_app n s : has_surrogate (str_of_Z n ++ s) = has_surrogate s.
Proof. apply has_surrogate_app, ascii_closed_text, str_of_Z_ascii. Qed.

Lemma type_name_closed v : is_closed_text (type_name v) = true.
Proof. destruct v; reflexivity. Qed.

Lemma error_type_name_text k : has_surrogate (error_type_name k) = false.
Proof. destruct k; reflexivity. Qed.

(** ** Validation *)

Lemma SFcompare_antisym x y :
  SFcompare y x = option_map CompOpp (SFcompare x y).
Proof.
  destruct x as [sx | sx | | sx mx ex], y as [sy | sy | | sy my ey]; simpl;
    try reflexivity;
    try (destruct sx; reflexivity); try (destruct sy; reflexivity);
    try (destruct sx, sy; reflexivity).
  destruct sx, sy; simpl; try reflexivity; f_equal;
    rewrite (Z.compare_antisym ex ey); destruct (ex ?= ey); simpl; try reflexivity;
    try (apply f_equal); symmetry; exact (Pos.compare_cont_antisym mx my Eq).
Qed.

Lemma fltb_not_fleb x y : fltb x y = true -> fleb y x = false.
Proof.
  unfold fltb, fleb, SFltb, SFleb. rewrite (SFcompare_antisym x y).
  destruct (SFcompare x y) as [[| |] |]; simpl; intros; congruence.
Qed.

Section ValidationFacts.
Context {lax : LaxConversions}.

Lemma out_of_bound_rejected t at_ v :
  out_of_bound t v = true ->
  exists k, validate_value t at_ v = inr [mkError k at_ v].
Proof.
  destruct t as [p | | ge le | ge le |]; simpl; try discriminate; intros H.
  - unfold validate_int, check_int.
    destruct (as_int v) as [n |]; try discriminate.
    apply orb_true_iff in H as [H | H].
    + destruct ge as [b |]; try discriminate. apply Z.ltb_lt in H.
      destruct (negb (le_ok_Z le n)); [eexists; reflexivity |].
      simpl. replace (b <=? n) with false by (symmetry; apply Z.leb_gt; lia).
      eexists; reflexivity.
    + destruct le as [b |]; try discriminate. apply Z.ltb_lt in H.
      simpl. replace (n <=? b) with false by (symmetry; apply Z.leb_gt; lia).
      eexists; reflexivity.
  - unfold validate_float, check_float.
    destruct (as_float v) as [x |]; try discriminate.
    apply orb_true_iff in H as [H | H].
    + destruct ge as [b |]; try discriminate. apply fltb_not_fleb in H.
      destruct (negb (le_ok_float le x)); [eexists; reflexivity |].
      simpl. rewrite H. eexists; reflexivity.
    + destruct le as [b |]; try discriminate. apply fltb_not_fleb in H.
      simpl. rewrite H. eexists; reflexivity.
Qed.

Lemma validate_fields_keeps_errors kv fs f es e :
  In f fs -> validate_field kv f = inr es -> In e es ->
  In e (snd (validate_fields kv fs)).
Proof.
  intros Hin Hf He. induction fs as [| g rest IH]; [destruct Hin |].
  simpl. destruct (validate_fields kv rest) as [vals errs] eqn:E.
  destruct Hin as [-> | Hin].
  - rewrite Hf. simpl. apply in_or_app. auto.
  - simpl in IH. specialize (IH Hin).
    destruct (validate_field kv g); simpl; auto.
    apply in_or_app. auto.
Qed.

Lemma model_validate_rejects fs kv e :
  In e (snd (validate_fields kv fs)) ->
  exists errors, model_validate fs (JObj kv) = inr errors /\ In e errors.
Proof.
  intros H. unfold model_validate.
  destruct (validate_fields kv fs) as [vals [| e0 errs]]; simpl in H.
  - destruct H.
  - eexists; split; [reflexivity | exact H].
Qed.

(** A field whose own validation fails makes the model reject the body,
    with an error located at that field. *)
Lemma field_error_rejects fs kv f k v :
  In f fs ->
  validate_field kv f = inr [mkError k [LKey "body"; LKey (name f)] v] ->
  exists errors,
    model_validate fs (JObj kv) = inr errors /\ names_field errors (name f).
Proof.
  intros Hin Hf.
  destruct (@model_validate_rejects fs kv (mkError k [LKey "body"; LKey (name f)] v))
    as [errors [Hv He]].
  - eapply validate_fields_keeps_errors; eauto. left; reflexivity.
  - exists errors; split; auto. eexists; split; eauto.
Qed.

Lemma out_of_bound_field_rejects kv fname :
  OutOfBound kv fname ->
  exists errors,
    model_validate ScreeningRequest (JObj kv) = inr errors
    /\ names_field errors fname.
Proof.
  intros [f v Hin Hname Hlook Hoob | s -> Hlook Hnot].
  - subst fname.
    destruct (out_of_bound_rejected (annotation f) [LKey "body"; LKey (name f)] v Hoob)
      as [k Hk].
    apply (@field_error_rejects ScreeningRequest kv f k v Hin).
    unfold validate_field. rewrite Hlook. exact Hk.
  - assert (Hm : Regex.fullmatch bbPosition_pattern s = false).
    { destruct (Regex.fullmatch bbPosition_pattern s) eqn:E; auto.
      apply bbPosition_pattern_language in E. contradiction. }
    apply (@field_error_rejects ScreeningRequest kv
             (mkField "bbPosition" (TStr (Some bbPosition_pattern)) (Some (JStr "all")))
             string_pattern_mismatch (JStr s)).
    + simpl. do 15 right. left. reflexivity.
    + unfold validate_field. simpl name. rewrite Hlook. simpl. rewrite Hm. reflexivity.
Qed.

(** *** The inputs echoed in the errors come from the body *)

Lemma compliant_lookup k kv v :
  json_compliant (JObj kv) = true -> dict_lookup k kv = Some v ->
  json_compliant v = true.
Proof.
  cbn [json_compliant].
  induction kv as [| [k0 v0] rest IH]; cbn [forallb dict_lookup]; [discriminate |].
  intros H Hl. apply andb_true_iff in H as [H0 Hrest].
  apply andb_true_iff in H0 as [_ H0].
  destruct (String.eqb k k0); [inversion Hl; subst; auto | auto].
Qed.

Lemma renderable_error_intro k at_ v :
  forallb json_compliant (map loc_json at_) = true -> json_compliant v = true ->
  renderable_error (mkError k at_ v) = true.
Proof. intros Ha Hv. unfold renderable_error. cbn [input loc]. rewrite Ha, Hv. reflexivity. Qed.

Lemma validate_items_inputs i l :
  forallb json_compliant l = true ->
  Forall (fun e => json_compliant (snd e) = true) (snd (validate_items i l)).
Proof.
  revert i. induction l as [| v rest IH]; intros i H; cbn [validate_items];
    [constructor |].
  cbn [forallb] in H. apply andb_true_iff in H as [Hv Hrest].
  specialize (IH (S i) Hrest).
  destruct (validate_items (S i) rest) as [oks errs]. cbn [snd] in IH.
  destruct (validate_str None v); cbn [snd]; auto.
Qed.

Lemma loc_index_compliant at_ i :
  forallb json_compliant (map loc_json at_) = true ->
  forallb json_compliant (map loc_json (at_ ++ [LIdx i])%list) = true.
Proof.
  intros H. rewrite map_app, forallb_app, H. reflexivity.
Qed.

Lemma validate_value_inputs t at_ v es :
  forallb json_compliant (map loc_json at_) = true ->
  json_compliant v = true -> validate_value t at_ v = inr es ->
  Forall (fun e => renderable_error e = true) es.
Proof.
  intros Ha Hv H.
  assert (Hone : forall r : JSON + ErrorKind,
             match r with inl v' => inl v' | inr k => inr [mkError k at_ v] end
             = inr es ->
             Forall (fun e => renderable_error e = true) es).
  { intros [v' | k] Hr; inversion Hr; subst.
    constructor; [apply renderable_error_intro; assumption | constructor]. }
  destruct t as [p | | ge le | ge le |]; cbn [validate_value] in H;
    try (apply Hone in H; exact H).
  destruct v; try (inversion H; subst;
                   constructor; [apply renderable_error_intro; assumption
                                | constructor]).
  pose proof (validate_items_inputs 0 l Hv) as Hitems.
  destruct (validate_items 0 l) as [oks errs]. cbn [snd] in Hitems.
  assert (Hes : es = map (fun e => match e with
                                   | (i, k, v') => mkError k (at_ ++ [LIdx i])%list v'
                                   end) errs).
  { destruct errs; [discriminate | injection H as <-; reflexivity]. }
  subst es. apply Forall_forall. intros e Hin.
  apply in_map_iff in Hin as [[[i k] v'] [<- Hin]].
  apply renderable_error_intro; [apply loc_index_compliant; exact Ha |].
  apply (proj1 (Forall_forall _ _) Hitems _ Hin).
Qed.

Lemma field_loc_compliant f :
  has_surrogate (name f) = false ->
  forallb json_compliant (map loc_json [LKey "body"; LKey (name f)]) = true.
Proof.
  intros H. cbn [map loc_json forallb json_compliant]. rewrite H. reflexivity.
Qed.

Lemma validate_fields_inputs kv fs :
  plain_names fs = true -> json_compliant (JObj kv) = true ->
  Forall (fun e => renderable_error e = true) (snd (validate_fields kv fs)).
Proof.
  intros Hn Hkv. induction fs as [| f rest IH]; cbn [validate_fields];
    [constructor |].
  unfold plain_names in Hn. cbn [forallb] in Hn.
  apply andb_true_iff in Hn as [Hf Hn]. apply negb_true_iff in Hf.
  specialize (IH Hn).
  destruct (validate_fields kv rest) as [vals errs]. cbn [snd] in IH.
  destruct (validate_field kv f) as [v | es] eqn:E; cbn [snd]; auto.
  apply Forall_app. split; auto.
  unfold validate_field in E.
  destruct (dict_lookup (name f) kv) as [v |] eqn:El.
  - eapply validate_value_inputs; [apply field_loc_compliant; exact Hf | | exact E].
    eapply compliant_lookup; [exact Hkv | exact El].
  - destruct (default f); inversion E; subst.
    constructor; [| constructor].
    apply renderable_error_intro; [apply field_loc_compliant; exact Hf | exact Hkv].
Qed.

Lemma errors_compliant errors :
  Forall (fun e => renderable_error e = true) errors ->
  json_compliant (JObj [("detail", JArr (map error_json errors))]) = true.
Proof.
  intros H.
  assert (Hl : forallb json_compliant (map error_json errors) = true).
  { induction H as [| e rest He _ IH]; [reflexivity |].
    cbn [map forallb]. rewrite IH, andb_true_r.
    unfold renderable_error in He. apply andb_true_iff in He as [Hi Hloc].
    unfold error_json. cbn [json_compliant forallb].
    rewrite error_type_name_text, Hi.
    rewrite Hloc. reflexivity. }
  cbn [json_compliant forallb]. rewrite Hl. reflexivity.
Qed.

(** A body of finite numbers and of text that can be encoded yields an
    error list that can be rendered. *)
Lemma model_validate_errors_compliant fs body errors :
  plain_names fs = true ->
  json_compliant body = true -> model_validate fs body = inr errors ->
  json_compliant (JObj [("detail", JArr (map error_json errors))]) = true.
Proof.
  intros Hn Hb H. apply errors_compliant. unfold model_validate in H.
  destruct body; try (inversion H; subst; constructor; [| constructor];
                      apply renderable_error_intro; [reflexivity | exact Hb]).
  pose proof (@validate_fields_inputs kv fs Hn Hb) as Hf.
  destruct (validate_fields kv fs) as [vals [| e0 errs]]; [discriminate |].
  inversion H; subst. exact Hf.
Qed.

Lemma names_field_detail errors fname :
  names_field errors fname ->
  detail_names_field (JArr (map error_json errors)) fname.
Proof.
  intros [e [Hin Hloc]].
  exists (map error_json errors),
    [ ("type", JStr (error_type_name (err_type e)));
      ("loc", JArr (map loc_json (loc e)));
      ("input", input e) ].
  split; [reflexivity |]. split.
  - apply (in_map error_json) in Hin. exact Hin.
  - simpl. rewrite Hloc. reflexivity.
Qed.

End ValidationFacts.

Lemma dict_lookup_set_other k k' v kv :
  k <> k' -> dict_lookup k' (dict_set k v kv) = dict_lookup k' kv.
Proof.
  intros Hne. induction kv as [| [k0 v0] rest IH]; simpl.
  - destruct (String.eqb k' k) eqn:E; auto.
    apply String.eqb_eq in E. congruence.
  - destruct (String.eqb k k0) eqn:E; simpl.
    + apply String.eqb_eq in E. subst k0.
      destruct (String.eqb k' k) eqn:E'; auto.
      apply String.eqb_eq in E'. congruence.
    + rewrite IH. reflexivity.
Qed.

Section FlagFacts.
Context {lax : LaxConversions}.

(** No field with a declared bound is an enable flag. *)
Lemma bounded_field_not_flag kv fname :
  OutOfBound kv fname -> ~ In fname family_flags.
Proof.
  intros [f v Hin Hname Hlook Hoob | s -> Hlook Hnot].
  - subst fname. unfold ScreeningRequest, bool_field in Hin. simpl in Hin.
    repeat (destruct Hin as [<- | Hin]; [simpl in *; try discriminate;
                                         intuition congruence |]).
    destruct Hin.
  - simpl. intuition congruence.
Qed.

Lemma OutOfBound_set_flags flags kv fname :
  Forall (fun kb => In (fst kb) family_flags) flags ->
  OutOfBound kv fname -> OutOfBound (set_flags flags kv) fname.
Proof.
  intros Hflags Hoob. pose proof (bounded_field_not_flag Hoob) as Hnf.
  induction Hflags as [| [k b] rest Hk _ IH]; simpl; auto.
  assert (Hne : k <> fname) by (intros ->; auto).
  destruct IH as [f v Hin Hname Hlook Hb | s Hf Hlook Hnot].
  - eapply oob_range; eauto. rewrite dict_lookup_set_other; auto.
  - eapply oob_position; eauto. subst fname. rewrite dict_lookup_set_other; auto.
Qed.

End FlagFacts.

(** ** Traces and middleware *)

Lemma sent_app tr1 tr2 : sent (tr1 ++ tr2) = (sent tr1 ++ sent tr2)%list.
Proof. apply filter_app. Qed.

Lemma sent_logged tr level msg : sent (tr ++ [Logged level msg]) = sent tr.
Proof. rewrite sent_app. simpl. apply app_nil_r. Qed.

Lemma sent_sent tr c : sent (tr ++ [Sent c]) = (sent tr ++ [Sent c])%list.
Proof. rewrite sent_app. reflexivity. Qed.

Ltac trace := repeat (rewrite sent_logged || rewrite sent_sent); try reflexivity.

Ltac run :=
  unfold app, server_error_middleware, exception_middleware, router, with_body,
    json_route, html_route, root, api_info, health_check, screen_stocks,
    validate_credentials, get_stock_codes, http_exception_handler,
    general_exception_handler, request_validation_exception_handler,
    JSONResponse, response_json, dot_get, client_send, raise_HTTPException,
    new_HTTPException,
    datetime_now_isoformat, KOTLIN_SERVICE_URL, logger, emit, world,
    try_except, bind, ret, raise.

Lemma compliant_internal w msg :
  has_surrogate msg = false ->
  json_compliant (JObj [ ("error", JStr "Internal server error");
                         ("detail", JStr msg);
                         ("timestamp", JStr (now_isoformat w)) ]) = true.
Proof.
  intros H. cbn [json_compliant forallb]. rewrite H, (now_message w). reflexivity.
Qed.

Lemma compliant_envelope d w :
  json_compliant (JObj [("error", d); ("timestamp", JStr (now_isoformat w))])
  = json_compliant d.
Proof.
  cbn [json_compliant forallb]. rewrite (now_message w).
  destruct (json_compliant d); reflexivity.
Qed.

Section MiddlewareFacts.
Context {lax : LaxConversions} {rt : Runtime}.

Lemma render_error_class c :
  exists cls, render_error c = Exc cls (render_error_message c).
Proof.
  unfold render_error, render_error_message.
  destruct (json_finite c); eexists; reflexivity.
Qed.

Lemma render_error_message_text c : has_surrogate (render_error_message c) = false.
Proof.
  unfold render_error_message.
  destruct (json_finite c); [apply encode_error_message | reflexivity].
Qed.

(** The handler registered for [Exception] answers whatever reaches it. *)
Lemma general_exception_handler_run cls msg w tr :
  has_surrogate msg = false ->
  general_exception_handler (Exc cls msg) w tr
  = (Returns (internal_error_response w msg),
     (tr ++ [Logged ERROR ("Unhandled exception: " ++ msg)])%list).
Proof.
  intros H. unfold internal_error_response. run. cbn [str_exn]. cbv beta iota.
  rewrite (@compliant_internal w msg H). reflexivity.
Qed.

(** A content rendered below the two layers: the response, or the answer of
    the fallback handler when it cannot be rendered. *)
Lemma rendered_below_layers sc c w tr :
  exists tr',
    try_except
      (try_except (JSONResponse sc c)
         (fun e =>
            match e with
            | HTTPException sc' detail => http_exception_handler sc' detail
            | RequestValidationError errors =>
                request_validation_exception_handler errors
            | Exc _ _ => raise e
            end))
      general_exception_handler w tr
    = (Returns (if json_compliant c then mkHttpResponse sc (JSONContent c)
                else internal_error_response w (render_error_message c)), tr')
    /\ sent tr' = sent tr
    /\ (json_compliant c = true -> tr' = tr).
Proof.
  unfold try_except at 1 2. unfold JSONResponse.
  destruct (json_compliant c).
  - eexists. split; [reflexivity | split; [reflexivity | reflexivity]].
  - destruct (render_error_class c) as [cls Hc]. rewrite Hc.
    unfold raise. cbv beta iota.
    rewrite (@general_exception_handler_run cls _ w tr (render_error_message_text c)).
    eexists. split; [reflexivity | split; [trace | discriminate]].
Qed.

(** The middleware layers never let an exception through and send nothing
    themselves. *)
Lemma json_route_answer (endpoint : M JSON) w tr :
  endpoint_outcome (fst (endpoint w tr)) ->
  exists tr',
    server_error_middleware (exception_middleware (json_route endpoint)) w tr
    = (Returns (answer w (fst (endpoint w tr))), tr')
    /\ sent tr' = sent (snd (endpoint w tr)).
Proof.
  intros Hout.
  unfold server_error_middleware, exception_middleware, json_route, answer.
  unfold try_except at 1 2. unfold bind.
  destruct (endpoint w tr) as [[a | [cls msg | sc detail | errors]] tr1];
    cbn [fst snd] in *; try contradiction.
  - destruct (rendered_below_layers 200 a w tr1) as [tr' [Hrun [Hsent _]]].
    unfold try_except in Hrun. exists tr'. split; [exact Hrun | exact Hsent].
  - unfold http_exception_handler, datetime_now_isoformat, bind, world, ret.
    destruct (rendered_below_layers sc (error_envelope detail w) w tr1)
      as [tr' [Hrun [Hsent _]]].
    unfold try_except, error_envelope in Hrun. unfold error_envelope.
    unfold JSONResponse in *.
    destruct (json_compliant
                (JObj [("error", detail); ("timestamp", JStr (now_isoformat w))])).
    + eexists. split; [reflexivity | reflexivity].
    + exists tr'. split; [| exact Hsent].
      destruct (render_error_class
                  (JObj [("error", detail); ("timestamp", JStr (now_isoformat w))]))
        as [cls Hc]. rewrite Hc in *. unfold raise in *. exact Hrun.
Qed.

(** A body that fails validation: the endpoint does not run, nothing is
    sent, and the answer is the rendered error list. *)
Lemma invalid_body_answer model body (endpoint : list (string * JSON) -> M JSON)
    errors w tr :
  model_validate model body = inr errors ->
  exists tr',
    server_error_middleware (exception_middleware (with_body model body endpoint)) w tr
    = (Returns (answer w (Raises (RequestValidationError errors))), tr')
    /\ sent tr' = sent tr
    /\ (json_compliant (JObj [("detail", JArr (map error_json errors))]) = true ->
        tr' = tr).
Proof.
  intros H.
  unfold server_error_middleware, exception_middleware, with_body, answer.
  rewrite H. unfold try_except at 1 2. unfold raise.
  unfold request_validation_exception_handler.
  destruct (rendered_below_layers 422
              (JObj [("detail", JArr (map error_json errors))]) w tr)
    as [tr' [Hrun Hrest]].
  unfold try_except in Hrun. unfold JSONResponse in *.
  destruct (json_compliant (JObj [("detail", JArr (map error_json errors))])).
  - eexists. split; [reflexivity | split; reflexivity].
  - exists tr'. split; [| exact Hrest].
    destruct (render_error_class (JObj [("detail", JArr (map error_json errors))]))
      as [cls Hc]. rewrite Hc in *. unfold raise in *. exact Hrun.
Qed.

Lemma valid_body_answer model body (endpoint : list (string * JSON) -> M JSON)
    request w tr :
  model_validate model body = inl request ->
  endpoint_outcome (fst (endpoint request w tr)) ->
  exists tr',
    server_error_middleware (exception_middleware (with_body model body endpoint)) w tr
    = (Returns (answer w (fst (endpoint request w tr))), tr')
    /\ sent tr' = sent (snd (endpoint request w tr)).
Proof.
  intros H Hout. unfold with_body. rewrite H. apply json_route_answer. exact Hout.
Qed.

End MiddlewareFacts.

Section AnswerFacts.
Context {rt : Runtime}.

Lemma answer_http w sc detail :
  json_compliant detail = true ->
  answer w (Raises (HTTPException sc detail))
  = json_response sc (error_envelope detail w).
Proof.
  intros H. unfold answer, error_envelope. rewrite compliant_envelope, H.
  reflexivity.
Qed.

Lemma answer_http_str w sc s :
  has_surrogate s = false ->
  answer w (Raises (HTTPException sc (JStr s)))
  = json_response sc (error_envelope (JStr s) w).
Proof. intros H. apply answer_http. cbn [json_compliant]. rewrite H. reflexivity. Qed.

(** The same for a message made of a fixed prefix and a text. *)
Lemma answer_http_prefixed w sc prefix msg :
  is_closed_text prefix = true -> has_surrogate msg = false ->
  answer w (Raises (HTTPException sc (JStr (prefix ++ msg))))
  = json_response sc (error_envelope (JStr (prefix ++ msg)) w).
Proof.
  intros Hp Hm. apply answer_http_str. rewrite has_surrogate_app; assumption.
Qed.

Lemma answer_http_status w sc detail :
  status (answer w (Raises (HTTPException sc detail))) = sc
  \/ status (answer w (Raises (HTTPException sc detail))) = 500.
Proof.
  unfold answer. destruct (json_compliant (error_envelope detail w)); auto.
Qed.

Lemma answer_returns w a :
  answer w (Returns a)
  = if json_compliant a then json_response 200 a
    else internal_error_response w (render_error_message a).
Proof. reflexivity. Qed.

(** The text of the failure of [.get] on a value that is not a [dict]. *)
Lemma no_attribute_get_text v :
  has_surrogate ("'" ++ type_name v ++ "' object has no attribute 'get'") = false.
Proof. destruct v; reflexivity. Qed.

End AnswerFacts.

(** ** The endpoints *)

Section HandlerFacts.
Context {rt : Runtime}.

(** Whatever happens, [screen_stocks] makes exactly one attempt. *)
Lemma screen_stocks_sends_once request w tr :
  sent (snd (screen_stocks request w tr))
  = (sent tr ++ [Sent (screen_call w request)])%list.
Proof.
  run. rewrite !sent_logged. fold (screen_call w request).
  destruct (downstream w (length (sent tr)) (screen_call w request)) as [r | cls msg];
    simpl.
  - destruct (negb (status_code r =? 200)).
    + destruct (String.eqb (text r) "");
        [| destruct (json_loads (text r)) as [[| b | n | x | s | l | kv] | m]];
        simpl; try destruct (status_phrase (status_code r)); simpl; trace.
    + destruct (json_loads (text r)) as [v | m]; simpl; [destruct v |];
        simpl; trace.
  - destruct cls; simpl; trace.
Qed.

Lemma screen_transport_failure request w tr cls msg :
  downstream w (length (sent tr)) (screen_call w request) = Fails cls msg ->
  fst (screen_stocks request w tr)
  = Raises
      (if isinstance_TimeoutException (Exc cls msg)
       then HTTPException 504 (JStr screen_timeout_detail)
       else if isinstance_ConnectError (Exc cls msg)
       then HTTPException 503 (JStr screen_connect_detail)
       else HTTPException 500 (JStr ("스크리닝 중 오류 발생: " ++ msg))).
Proof.
  intros H. run. rewrite !sent_logged. fold (screen_call w request). rewrite H.
  destruct cls; reflexivity.
Qed.



Lemma screen_stocks_outcome request w tr :
  endpoint_outcome (fst (screen_stocks request w tr)).
Proof.
  run.
  destruct (downstream w _ _) as [r | cls msg]; simpl.
  - destruct (negb (status_code r =? 200)).
    + destruct (String.eqb (text r) "");
        [| destruct (json_loads (text r)) as [[| b | n | x | s | l | kv] | m]];
        simpl; try destruct (status_phrase (status_code r)); simpl; exact I.
    + destruct (json_loads (text r)) as [v | m]; simpl; [destruct v |];
        simpl; exact I.
  - destruct cls; simpl; exact I.
Qed.

Lemma validate_credentials_outcome request w tr :
  endpoint_outcome (fst (validate_credentials request w tr)).
Proof.
  run.
  destruct (downstream w _ _) as [r | cls msg]; simpl; [| exact I].
  destruct (json_loads (text r)) as [v | m]; simpl; [| exact I].
  destruct (status_code r =? 200); simpl; [exact I |].
  destruct v; simpl; exact I.
Qed.

Lemma get_stock_codes_outcome w tr :
  endpoint_outcome (fst (get_stock_codes w tr)).
Proof.
  run.
  destruct (downstream w _ _) as [r | cls msg]; simpl; [| exact I].
  destruct (negb (status_code r =? 200)); simpl; [exact I |].
  destruct (json_loads (text r)); simpl; exact I.
Qed.

Lemma health_check_returns w tr :
  exists tr',
    health_check w tr
    = (Returns
         (JObj [ ("status",
                   JStr (if probe_returns_200 w tr then "healthy" else "degraded"));
                 ("services",
                   JObj [ ("gateway", JStr "healthy");
                          ("kotlin_screener",
                            JStr (if probe_returns_200 w tr
                                  then "healthy" else "unhealthy")) ]);
                 ("timestamp", JStr (now_isoformat w)) ]), tr')
    /\ sent tr' = (sent tr ++ [Sent (get_call w "/health")])%list.
Proof.
  unfold probe_returns_200. run. fold (get_call w "/health").
  destruct (downstream w (length (sent tr)) (get_call w "/health")) as [r | cls msg];
    simpl; eexists; (split; [reflexivity | trace]).
Qed.

Lemma health_check_outcome w tr : endpoint_outcome (fst (health_check w tr)).
Proof. destruct (health_check_returns w tr) as [tr' [H _]]. rewrite H. exact I. Qed.

Lemma root_from_outcome paths w tr :
  match fst (root_from paths w tr) with
  | Returns _ => True
  | Raises (Exc _ msg) => has_surrogate msg = false
  | Raises _ => False
  end.
Proof.
  revert tr. induction paths as [| p rest IH]; intros tr; simpl; [exact I |].
  run. destruct (file w p) eqn:E; simpl; auto.
  - apply IH.
  - apply (file_message w p E).
Qed.

End HandlerFacts.

(** ** Summaries of the routes *)

Section RouteFacts.
Context {rt : Runtime}.

Lemma screen_stocks_summary request w tr :
  fst (screen_stocks request w tr)
  = screen_outcome (downstream w (length (sent tr)) (screen_call w request)).
Proof.
  unfold screen_outcome. run. rewrite !sent_logged. fold (screen_call w request).
  destruct (downstream w (length (sent tr)) (screen_call w request)) as [r | cls msg];
    simpl.
  - destruct (status_code r =? 200); simpl.
    + destruct (json_loads (text r)) as [v | m]; simpl; [destruct v |]; reflexivity.
    + destruct (String.eqb (text r) ""); simpl; [reflexivity |].
      destruct (json_loads (text r)) as [[| b | n | x | s | l | kv] | m]; simpl;
        try destruct (status_phrase (status_code r)); reflexivity.
  - destruct cls; reflexivity.
Qed.

Lemma validate_credentials_summary request w tr :
  fst (validate_credentials request w tr)
  = credentials_outcome (downstream w (length (sent tr)) (credentials_call w request)).
Proof.
  unfold credentials_outcome. run. rewrite !sent_logged.
  fold (credentials_call w request).
  destruct (downstream w (length (sent tr)) (credentials_call w request))
    as [r | cls msg]; simpl; [| reflexivity].
  destruct (json_loads (text r)) as [v | m]; simpl; [| reflexivity].
  destruct (status_code r =? 200); simpl; [reflexivity |].
  destruct v; reflexivity.
Qed.

Lemma get_stock_codes_summary w tr :
  fst (get_stock_codes w tr)
  = stock_codes_outcome (downstream w (length (sent tr))
                           (get_call w "/api/v1/stock-codes")).
Proof.
  unfold stock_codes_outcome. run. fold (get_call w "/api/v1/stock-codes").
  destruct (downstream w (length (sent tr)) (get_call w "/api/v1/stock-codes"))
    as [r | cls msg]; simpl; [| reflexivity].
  destruct (status_code r =? 200); simpl; [| reflexivity].
  destruct (json_loads (text r)); reflexivity.
Qed.

Lemma validate_credentials_sends_once request w tr :
  sent (snd (validate_credentials request w tr))
  = (sent tr ++ [Sent (credentials_call w request)])%list.
Proof.
  run. rewrite !sent_logged. fold (credentials_call w request).
  destruct (downstream w (length (sent tr)) (credentials_call w request))
    as [r | cls msg]; simpl; [| trace].
  destruct (json_loads (text r)) as [v | m]; simpl; [| trace].
  destruct (status_code r =? 200); simpl; [trace |].
  destruct v; simpl; trace.
Qed.

Lemma get_stock_codes_sends_once w tr :
  sent (snd (get_stock_codes w tr))
  = (sent tr ++ [Sent (get_call w "/api/v1/stock-codes")])%list.
Proof.
  run. fold (get_call w "/api/v1/stock-codes").
  destruct (downstream w (length (sent tr)) (get_call w "/api/v1/stock-codes"))
    as [r | cls msg]; simpl; [| trace].
  destruct (status_code r =? 200); simpl; [| trace].
  destruct (json_loads (text r)); simpl; trace.
Qed.

Lemma root_from_sends_nothing paths w tr :
  sent (snd (root_from paths w tr)) = sent tr.
Proof.
  revert tr. induction paths as [| p rest IH]; intros tr; simpl; [reflexivity |].
  run. destruct (file w p); simpl; [apply IH | trace | reflexivity].
Qed.

(** The HTML route under the two middleware layers. *)
Lemma html_route_answer w tr :
  exists tr',
    server_error_middleware (exception_middleware (html_route root)) w tr
    = (Returns match fst (root w tr) with
               | Returns h => html_response h
               | Raises (Exc _ msg) => internal_error_response w msg
               | Raises _ => internal_error_response w ""
               end, tr')
    /\ sent tr' = sent tr.
Proof.
  pose proof (root_from_outcome html_paths w tr) as Hout.
  pose proof (root_from_sends_nothing html_paths w tr) as Hsent.
  unfold internal_error_response, html_response. run. fold (root_from html_paths).
  destruct (root_from html_paths w tr) as [[h | [cls msg | sc d | errors]] tr1];
    cbn [fst snd] in *; try contradiction; cbv beta iota.
  - eexists; split; [reflexivity | exact Hsent].
  - cbn [str_exn]. rewrite (@compliant_internal w msg Hout).
    eexists; split; [reflexivity | trace; exact Hsent].
Qed.

End RouteFacts.

(** ** Validation of the screen request *)

Lemma minimal_body_valid (lax : LaxConversions) k s :
  model_validate ScreeningRequest (minimal_body k s) = inl (screening_defaults k s).
Proof. reflexivity. Qed.

Lemma credentials_body_valid (lax : LaxConversions) k s :
  model_validate CredentialsRequest (minimal_body k s)
  = inl [("appKey", JStr k); ("appSecret", JStr s)].
Proof. reflexivity. Qed.

(** What a screen request with a value out of bounds is answered when its
    body can be rendered.  A body that holds a field outside its declared
    bound, or a [bbPosition] outside all/upper/middle/lower, is rejected by
    validation whatever the other fields are, with an error located at that
    field, and no request goes downstream.  When the body holds finite
    numbers only and no lone surrogate, the answer is the client error 422
    and its [detail] names the field. *)
Lemma screen_rejects_out_of_bound_field :
  forall (lax : LaxConversions) (rt : Runtime) kv fname w tr,
    OutOfBound kv fname ->
    exists errors,
      model_validate ScreeningRequest (JObj kv) = inr errors
      /\ names_field errors fname
      /\ sent (snd (app (POST_screen (JObj kv)) w tr)) = sent tr
      /\ (json_compliant (JObj kv) = true ->
          app (POST_screen (JObj kv)) w tr
          = (Returns (json_response 422
                        (JObj [("detail", JArr (map error_json errors))])), tr)
          /\ detail_names_field (JArr (map error_json errors)) fname).
Proof.
  intros lax rt kv fname w tr H.
  destruct (out_of_bound_field_rejects H) as [errors [Hv Hn]].
  exists errors. split; [exact Hv |]. split; [exact Hn |].
  destruct (@invalid_body_answer lax rt _ _ screen_stocks errors w tr Hv)
    as [tr' [Hrun [Hsent Htr]]].
  unfold app, router. rewrite Hrun. split; [exact Hsent |].
  intros Hc.
  pose proof (@model_validate_errors_compliant lax ScreeningRequest (JObj kv) errors
                (eq_refl true) Hc Hv) as Hd.
  rewrite (Htr Hd). unfold answer. rewrite Hd.
  split; [reflexivity | apply names_field_detail; exact Hn].
Qed.

Lemma bbPeriod_3_is_rejected_with_422 :
  exists errors,
    model_validate (lax := no_conversion) ScreeningRequest (JObj body_bbPeriod_3)
    = inr errors
    /\ names_field errors "bbPeriod"
    /\ sent (snd (app (lax := no_conversion) (rt := sample_runtime)
                    (POST_screen (JObj body_bbPeriod_3))
                    (world_answering (Responds (mkResponse 200 "{}"))) [])) = sent []
    /\ (json_compliant (JObj body_bbPeriod_3) = true ->
        app (lax := no_conversion) (rt := sample_runtime)
          (POST_screen (JObj body_bbPeriod_3))
          (world_answering (Responds (mkResponse 200 "{}"))) []
        = (Returns (json_response 422
                      (JObj [("detail", JArr (map error_json errors))])), [])
        /\ detail_names_field (JArr (map error_json errors)) "bbPeriod").
Proof.
  apply (@screen_rejects_out_of_bound_field no_conversion sample_runtime
           body_bbPeriod_3 "bbPeriod"
           (world_answering (Responds (mkResponse 200 "{}"))) []).
  apply (@oob_range no_conversion body_bbPeriod_3 "bbPeriod"
           (mkField "bbPeriod" (TInt (Some 5) (Some 100)) (Some (JInt 20))) (JInt 3)).
  - simpl. do 13 right. left. reflexivity.
  - reflexivity.
  - reflexivity.
  - reflexivity.
Defined.

(** C3. A screen request whose [bbMultiplier] is sent as [1e999], which
    decodes to infinity and lies above the bound 5.0: validation rejects the
    body, with an error located at [bbMultiplier], and nothing goes
    downstream; but the error list echoes the infinite input, the 422 that
    is built from it cannot be rendered, and the client gets the 500 of the
    fallback handler, which is not a client error. *)
Theorem screen_out_of_bound_infinity_yields_500 :
  OutOfBound (lax := no_conversion) body_bbMultiplier_1e999 "bbMultiplier"
  /\ model_validate (lax := no_conversion) ScreeningRequest
       (JObj body_bbMultiplier_1e999)
     = inr [mkError less_than_equal [LKey "body"; LKey "bbMultiplier"]
              (JFloat f_inf)]
  /\ exists resp tr',
      app (lax := no_conversion) (rt := sample_runtime)
        (POST_screen (JObj body_bbMultiplier_1e999))
        (world_answering (Responds (mkResponse 200 "{}"))) []
      = (Returns resp, tr')
      /\ sent tr' = []
      /\ resp = internal_error_response
                  (world_answering (Responds (mkResponse 200 "{}")))
                  "Out of range float values are not JSON compliant"
      /\ status resp = 500
      /\ ~ (400 <= status resp < 500).
Proof.
  split; [| split].
  - apply (@oob_range no_conversion body_bbMultiplier_1e999 "bbMultiplier"
             (mkField "bbMultiplier" (TFloat (Some f_0_5) (Some f_5_0))
                (Some (JFloat f_2_0))) (JFloat f_inf)).
    + simpl. do 14 right. left. reflexivity.
    + reflexivity.
    + reflexivity.
    + reflexivity.
  - reflexivity.
  - do 2 eexists. split; [vm_compute; reflexivity |].
    split; [reflexivity |]. split; [reflexivity |].
    split; [reflexivity | simpl; lia].
Qed.

(** C4. Range checks do not look at the enable flags: whatever values the
    family flags of a body are set to, a threshold outside its bound still
    makes validation reject the request, with an error located at that
    threshold, and no request goes downstream. *)
Theorem thresholds_checked_whatever_the_flags :
  forall (lax : LaxConversions) (rt : Runtime) kv flags fname w tr,
    Forall (fun kb => In (fst kb) family_flags) flags ->
    OutOfBound kv fname ->
    exists errors,
      model_validate ScreeningRequest (JObj (set_flags flags kv)) = inr errors
      /\ names_field errors fname
      /\ sent (snd (app (POST_screen (JObj (set_flags flags kv))) w tr)) = sent tr.
Proof.
  intros lax rt kv flags fname w tr Hflags H.
  destruct (out_of_bound_field_rejects (OutOfBound_set_flags Hflags H))
    as [errors [Hv Hn]].
  exists errors. split; [exact Hv |]. split; [exact Hn |].
  destruct (@invalid_body_answer lax rt _ _ screen_stocks errors w tr Hv)
    as [tr' [Hrun [Hsent _]]].
  unfold app, router. rewrite Hrun. exact Hsent.
Qed.

Lemma thresholds_checked_whatever_the_flags_witness :
  exists errors,
    model_validate (lax := no_conversion) ScreeningRequest
      (JObj (set_flags [("ma60Enabled", false)] body_ma60Min_500)) = inr errors
    /\ names_field errors "ma60Min"
    /\ sent (snd (app (lax := no_conversion) (rt := sample_runtime)
                    (POST_screen
                       (JObj (set_flags [("ma60Enabled", false)] body_ma60Min_500)))
                    (world_answering (Responds (mkResponse 200 "{}"))) [])) = sent [].
Proof.
  apply (@thresholds_checked_whatever_the_flags no_conversion sample_runtime
           body_ma60Min_500 [("ma60Enabled", false)] "ma60Min"
           (world_answering (Responds (mkResponse 200 "{}"))) []).
  - constructor; [simpl; tauto | constructor].
  - apply (@oob_range no_conversion body_ma60Min_500 "ma60Min"
             (mkField "ma60Min" (TInt (Some 0) (Some 200)) (Some (JInt 95))) (JInt 500)).
    + simpl. do 4 right. left. reflexivity.
    + reflexivity.
    + reflexivity.
    + reflexivity.
Defined.

Example bbPeriod_3_errors :
  model_validate (lax := no_conversion) ScreeningRequest (JObj body_bbPeriod_3)
  = inr [mkError greater_than_equal [LKey "body"; LKey "bbPeriod"] (JInt 3)].
Proof. reflexivity. Qed.

(** The whole answer to [bbPeriod = 3]. *)
Example bbPeriod_3_answer :
  app (lax := no_conversion) (rt := sample_runtime)
    (POST_screen (JObj body_bbPeriod_3))
    (world_answering (Responds (mkResponse 200 "{}"))) []
  = (Returns
       (json_response 422
          (JObj [ ("detail",
                    JArr [ JObj [ ("type", JStr "greater_than_equal");
                                  ("loc", JArr [JStr "body"; JStr "bbPeriod"]);
                                  ("input", JInt 3) ] ]) ])), []).
Proof. vm_compute. reflexivity. Qed.

Example ma60_disabled_min_500_errors :
  model_validate (lax := no_conversion) ScreeningRequest
    (JObj (set_flags [("ma60Enabled", false)] body_ma60Min_500))
  = inr [mkError less_than_equal [LKey "body"; LKey "ma60Min"] (JInt 500)].
Proof. reflexivity. Qed.

Example bbMultiplier_7_errors :
  model_validate (lax := no_conversion) ScreeningRequest
    (JObj [ ("appKey", JStr "key"); ("appSecret", JStr "secret");
            ("bbMultiplier", JInt 7) ])
  = inr [mkError less_than_equal [LKey "body"; LKey "bbMultiplier"] (JInt 7)].
Proof. vm_compute. reflexivity. Qed.

Example bbPosition_top_errors :
  model_validate (lax := no_conversion) ScreeningRequest
    (JObj [ ("appKey", JStr "key"); ("appSecret", JStr "secret");
            ("bbPosition", JStr "top") ])
  = inr [mkError string_pattern_mismatch [LKey "body"; LKey "bbPosition"] (JStr "top")].
Proof. reflexivity. Qed.

(** ** The screen route *)

(** C1. For a screen request that passed validation, a downstream timeout
    is answered with 504 and the fixed timeout message, a refused connection
    with 503 and the fixed connection message; no failure is of both kinds,
    and in either case exactly one request went downstream (no retry). *)
Theorem screen_timeout_504_unreachable_503 :
  forall (lax : LaxConversions) (rt : Runtime) body request w tr cls msg,
    model_validate ScreeningRequest body = inl request ->
    downstream w (length (sent tr)) (screen_call w request) = Fails cls msg ->
    let out := app (POST_screen body) w tr in
    sent (snd out) = (sent tr ++ [Sent (screen_call w request)])%list
    /\ (isinstance_TimeoutException (Exc cls msg) = true ->
        fst out = Returns (json_response 504
                             (error_envelope (JStr screen_timeout_detail) w)))
    /\ (isinstance_ConnectError (Exc cls msg) = true ->
        fst out = Returns (json_response 503
                             (error_envelope (JStr screen_connect_detail) w)))
    /\ ~ (isinstance_TimeoutException (Exc cls msg) = true
          /\ isinstance_ConnectError (Exc cls msg) = true).
Proof.
  intros lax rt body request w tr cls msg Hvalid Hfail out. subst out.
  destruct (@valid_body_answer lax rt _ _ screen_stocks request w tr Hvalid
              (screen_stocks_outcome request w tr))
    as [tr' [Hrun Hsent]].
  unfold app, router. rewrite Hrun.
  rewrite (screen_transport_failure request w tr Hfail). cbn [fst snd].
  split; [rewrite Hsent; apply screen_stocks_sends_once |].
  split; [| split].
  - intros Ht. rewrite Ht. rewrite answer_http_str by reflexivity. reflexivity.
  - intros Hc. destruct cls; try discriminate.
    cbn [isinstance_TimeoutException isinstance_ConnectError].
    rewrite answer_http_str by reflexivity. reflexivity.
  - intros [Ht Hc]. destruct cls; discriminate.
Qed.

Lemma screen_timeout_504_unreachable_503_witness :
  fst (app (lax := no_conversion) (rt := sample_runtime)
         (POST_screen (minimal_body "key" "secret"))
         (world_answering (Fails httpx_ReadTimeout "timed out")) [])
  = Returns (json_response 504
               (JObj [ ("error", JStr screen_timeout_detail);
                       ("timestamp", JStr "2024-01-01T00:00:00") ]))
  /\ fst (app (lax := no_conversion) (rt := sample_runtime)
            (POST_screen (minimal_body "key" "secret"))
            (world_answering (Fails httpx_ConnectError "refused")) [])
     = Returns (json_response 503
                  (JObj [ ("error", JStr screen_connect_detail);
                          ("timestamp", JStr "2024-01-01T00:00:00") ])).
Proof.
  split.
  - apply (@screen_timeout_504_unreachable_503 no_conversion sample_runtime
             (minimal_body "key" "secret") (screening_defaults "key" "secret")
             (world_answering (Fails httpx_ReadTimeout "timed out")) []
             httpx_ReadTimeout "timed out"); reflexivity.
  - apply (@screen_timeout_504_unreachable_503 no_conversion sample_runtime
             (minimal_body "key" "secret") (screening_defaults "key" "secret")
             (world_answering (Fails httpx_ConnectError "refused")) []
             httpx_ConnectError "refused"); reflexivity.
Defined.



(** The three kinds of downstream body, on the sample runtime. *)
Example screen_relays_empty_and_null_bodies :
  fst (app (lax := no_conversion) (rt := sample_runtime)
         (POST_screen (minimal_body "key" "secret"))
         (world_answering (Responds (mkResponse 502 ""))) [])
  = Returns (json_response 502
               (JObj [ ("error", JObj [("error", JStr "Unknown error")]);
                       ("timestamp", JStr "2024-01-01T00:00:00") ]))
  /\ fst (app (lax := no_conversion) (rt := sample_runtime)
            (POST_screen (minimal_body "key" "secret"))
            (world_answering (Responds (mkResponse 400 "null"))) [])
     = Returns (json_response 400
                  (JObj [ ("error", JStr "Bad Request");
                          ("timestamp", JStr "2024-01-01T00:00:00") ]))
  /\ fst (app (lax := no_conversion) (rt := sample_runtime)
            (POST_screen (minimal_body "key" "secret"))
            (world_answering (Responds (mkResponse 499 "null"))) [])
     = Returns (json_response 500
                  (JObj [ ("error",
                            JStr "스크리닝 중 오류 발생: 499 is not a valid HTTPStatus");
                          ("timestamp", JStr "2024-01-01T00:00:00") ])).
Proof. repeat split; vm_compute; reflexivity. Qed.


(** ** The validate-credentials route *)




(** ** The stock-codes route *)

(** Any non-200 downstream answer is turned into a 500: the exception
    that carries the downstream status is caught by the route's own
    catch-all clause. *)
Lemma stock_codes_non_200_yields_500 (lax : LaxConversions) (rt : Runtime) w tr r :
  downstream w (length (sent tr)) (get_call w "/api/v1/stock-codes") = Responds r ->
  status_code r <> 200 ->
  fst (app GET_stock_codes w tr)
  = Returns (json_response 500
               (error_envelope
                  (JStr ("종목 코드 조회 중 오류 발생: "
                         ++ str_of_Z (status_code r) ++ ": "
                         ++ stock_codes_failed_detail)) w)).
Proof.
  intros Hr Hsc.
  destruct (@json_route_answer rt get_stock_codes w tr
              (get_stock_codes_outcome w tr)) as [tr' [Hrun _]].
  unfold app, router. rewrite Hrun. cbn [fst]. clear Hrun.
  rewrite get_stock_codes_summary, Hr. unfold stock_codes_outcome.
  replace (status_code r =? 200) with false by (symmetry; apply Z.eqb_neq; auto).
  rewrite answer_http_prefixed; [reflexivity | reflexivity |].
  rewrite str_of_Z_app. reflexivity.
Qed.

(** Any exception during the call is answered with 500. *)
Lemma stock_codes_exception_yields_500 (lax : LaxConversions) (rt : Runtime)
    w tr cls msg :
  downstream w (length (sent tr)) (get_call w "/api/v1/stock-codes") = Fails cls msg ->
  fst (app GET_stock_codes w tr)
  = Returns (json_response 500
               (error_envelope (JStr ("종목 코드 조회 중 오류 발생: " ++ msg)) w)).
Proof.
  intros Hr.
  destruct (@json_route_answer rt get_stock_codes w tr
              (get_stock_codes_outcome w tr)) as [tr' [Hrun _]].
  unfold app, router. rewrite Hrun. cbn [fst]. clear Hrun.
  rewrite get_stock_codes_summary, Hr. unfold stock_codes_outcome.
  rewrite answer_http_prefixed; [reflexivity | reflexivity |].
  apply (downstream_message w _ _ Hr).
Qed.

(** C6. With the downstream engine answering 404 to the list of codes,
    the gateway answers 500, not 404. *)
Theorem stock_codes_404_yields_500 :
  exists resp,
    fst (app (lax := no_conversion) (rt := sample_runtime) GET_stock_codes
           (world_answering (Responds (mkResponse 404 "{}"))) [])
    = Returns resp
    /\ status resp = 500
    /\ status resp <> 404
    /\ content resp
       = JSONContent
           (JObj [ ("error", JStr "종목 코드 조회 중 오류 발생: 404: 종목 코드 조회 실패");
                   ("timestamp", JStr "2024-01-01T00:00:00") ]).
Proof.
  eexists. split; [vm_compute; reflexivity |].
  split; [reflexivity |]. split; [simpl; lia | reflexivity].
Qed.

(** ** Error envelopes *)




(** ** Required fields and defaults *)

Section CredentialFacts.
Context {lax : LaxConversions}.

Lemma missing_field_rejects fs kv f :
  In f fs -> default f = None -> dict_lookup (name f) kv = None ->
  exists errors,
    model_validate fs (JObj kv) = inr errors
    /\ In (mkError missing [LKey "body"; LKey (name f)] (JObj kv)) errors.
Proof.
  intros Hin Hd Hl.
  apply model_validate_rejects.
  apply (@validate_fields_keeps_errors lax kv fs f
           [mkError missing [LKey "body"; LKey (name f)] (JObj kv)] _ Hin).
  - unfold validate_field. rewrite Hl, Hd. reflexivity.
  - left. reflexivity.
Qed.

(** An absent field that has a default takes it. *)
Lemma validate_fields_lookup kv fs f v :
  unique_names (map name fs) = true -> In f fs -> validate_field kv f = inl v ->
  dict_lookup (name f) (fst (validate_fields kv fs)) = Some v.
Proof.
  intros Hu Hin Hf. induction fs as [| g rest IH]; [destruct Hin |].
  simpl in Hu. apply andb_true_iff in Hu as [Hg Hrest].
  simpl. destruct (validate_fields kv rest) as [vals errs] eqn:E.
  destruct Hin as [-> | Hin].
  - rewrite Hf. simpl. rewrite String.eqb_refl. reflexivity.
  - assert (Hne : String.eqb (name f) (name g) = false).
    { apply negb_true_iff in Hg.
      destruct (String.eqb (name f) (name g)) eqn:Eq; [| reflexivity].
      apply String.eqb_eq in Eq. rewrite <- Hg. symmetry.
      apply existsb_exists. exists (name f). split.
      - apply in_map. exact Hin.
      - rewrite <- Eq. apply String.eqb_refl. }
    simpl in IH. specialize (IH Hrest Hin).
    destruct (validate_field kv g); simpl; [rewrite Hne |]; exact IH.
Qed.

Lemma absent_field_takes_default fs kv request f d :
  unique_names (map name fs) = true ->
  model_validate fs (JObj kv) = inl request ->
  In f fs -> default f = Some d -> dict_lookup (name f) kv = None ->
  dict_lookup (name f) request = Some d.
Proof.
  intros Hu Hv Hin Hd Hl.
  assert (Hf : validate_field kv f = inl d).
  { unfold validate_field. rewrite Hl, Hd. reflexivity. }
  pose proof (validate_fields_lookup kv fs f Hu Hin Hf) as H.
  unfold model_validate in Hv.
  destruct (validate_fields kv fs) as [vals [| e errs]]; [| discriminate].
  inversion Hv; subst. exact H.
Qed.

End CredentialFacts.

(** C8, as the code has it.  [appKey] and [appSecret] are required by both
    request models: a body in which one of them is absent is rejected by
    validation, with a [missing] error located at it, and no request goes
    downstream.  No minimum length is declared: any two strings, empty ones
    included, are accepted. *)
Theorem credentials_required_any_string_accepted :
  forall (lax : LaxConversions) (rt : Runtime) kv key w tr,
    key = "appKey" \/ key = "appSecret" ->
    dict_lookup key kv = None ->
    (exists errors,
        model_validate ScreeningRequest (JObj kv) = inr errors
        /\ In (mkError missing [LKey "body"; LKey key] (JObj kv)) errors
        /\ sent (snd (app (POST_screen (JObj kv)) w tr)) = sent tr)
    /\ (exists errors,
           model_validate CredentialsRequest (JObj kv) = inr errors
           /\ In (mkError missing [LKey "body"; LKey key] (JObj kv)) errors
           /\ sent (snd (app (POST_validate_credentials (JObj kv)) w tr)) = sent tr)
    /\ (forall k s,
           model_validate ScreeningRequest (minimal_body k s)
           = inl (screening_defaults k s)
           /\ model_validate CredentialsRequest (minimal_body k s)
              = inl [("appKey", JStr k); ("appSecret", JStr s)]).
Proof.
  intros lax rt kv key w tr Hkey Hl.
  assert (Hfield : exists f, In f ScreeningRequest /\ In f CredentialsRequest
                             /\ default f = None /\ name f = key).
  { destruct Hkey as [-> | ->].
    - exists (mkField "appKey" (TStr None) None). simpl. tauto.
    - exists (mkField "appSecret" (TStr None) None). simpl. tauto. }
  destruct Hfield as [f [Hs [Hc [Hd Hn]]]]. subst key.
  split; [| split].
  - destruct (@missing_field_rejects lax ScreeningRequest kv f Hs Hd Hl)
      as [errors [Hv He]].
    exists errors. split; [exact Hv |]. split; [exact He |].
    destruct (@invalid_body_answer lax rt _ _ screen_stocks errors w tr Hv)
      as [tr' [Hrun [Hsent _]]].
    unfold app, router. rewrite Hrun. exact Hsent.
  - destruct (@missing_field_rejects lax CredentialsRequest kv f Hc Hd Hl)
      as [errors [Hv He]].
    exists errors. split; [exact Hv |]. split; [exact He |].
    destruct (@invalid_body_answer lax rt _ _ validate_credentials errors w tr Hv)
      as [tr' [Hrun [Hsent _]]].
    unfold app, router. rewrite Hrun. exact Hsent.
  - intros k s. split; reflexivity.
Qed.

Lemma credentials_required_any_string_accepted_witness :
  exists errors,
    model_validate (lax := no_conversion) CredentialsRequest
      (JObj [("appSecret", JStr "secret")]) = inr errors
    /\ In (mkError missing [LKey "body"; LKey "appKey"]
             (JObj [("appSecret", JStr "secret")])) errors
    /\ sent (snd (app (lax := no_conversion) (rt := sample_runtime)
                    (POST_validate_credentials (JObj [("appSecret", JStr "secret")]))
                    (world_answering (Responds (mkResponse 200 "{}"))) [])) = sent [].
Proof.
  apply (@credentials_required_any_string_accepted no_conversion sample_runtime
           [("appSecret", JStr "secret")] "appKey"
           (world_answering (Responds (mkResponse 200 "{}"))) []).
  - left. reflexivity.
  - reflexivity.
Defined.

(** Both credentials empty: both models accept the body, and the
    validate-credentials route goes on to answer 200. *)
Lemma empty_credentials_accepted :
  model_validate (lax := no_conversion) ScreeningRequest (minimal_body "" "")
  = inl (screening_defaults "" "")
  /\ model_validate (lax := no_conversion) CredentialsRequest (minimal_body "" "")
     = inl [("appKey", JStr ""); ("appSecret", JStr "")]
  /\ fst (app (lax := no_conversion) (rt := sample_runtime)
            (POST_validate_credentials (minimal_body "" ""))
            (world_answering (Responds (mkResponse 200 "{}"))) [])
     = Returns (json_response 200
                  (JObj [ ("valid", JBool true); ("message", JStr "인증 성공") ])).
Proof. repeat split; vm_compute; reflexivity. Qed.

(** ** Health *)

(** C9. A health request is always answered with status 200.  The
    composite status is "healthy" exactly when the probe came back with
    status 200 and "degraded" otherwise; whether the probe raised, whatever
    the exception, or came back with another status makes no difference to
    the answer; the gateway's own entry is always "healthy"; and every
    health request sends one probe. *)
Theorem health_always_200_healthy_iff_probe_200 :
  forall (lax : LaxConversions) (rt : Runtime) w tr,
    exists body tr',
      app GET_health w tr = (Returns (json_response 200 (JObj body)), tr')
      /\ sent tr' = (sent tr ++ [Sent (get_call w "/health")])%list
      /\ body
         = [ ("status", JStr (if probe_returns_200 w tr then "healthy" else "degraded"));
             ("services",
               JObj [ ("gateway", JStr "healthy");
                      ("kotlin_screener",
                        JStr (if probe_returns_200 w tr
                              then "healthy" else "unhealthy")) ]);
             ("timestamp", JStr (now_isoformat w)) ]
      /\ (dict_lookup "status" body = Some (JStr "healthy")
          <-> exists r, downstream w (length (sent tr)) (get_call w "/health")
                        = Responds r /\ status_code r = 200)
      /\ (dict_lookup "status" body = Some (JStr "degraded")
          <-> ~ exists r, downstream w (length (sent tr)) (get_call w "/health")
                          = Responds r /\ status_code r = 200).
Proof.
  intros lax rt w tr.
  destruct (@json_route_answer rt health_check w tr (health_check_outcome w tr)) as [tr' [Hrun Hsent]].
  destruct (health_check_returns w tr) as [tr1 [Hh Hs1]].
  rewrite Hh in Hrun, Hsent. cbn [fst snd] in Hrun, Hsent.
  assert (Hp : probe_returns_200 w tr = true
               <-> exists r, downstream w (length (sent tr)) (get_call w "/health")
                             = Responds r /\ status_code r = 200).
  { unfold probe_returns_200.
    destruct (downstream w (length (sent tr)) (get_call w "/health")) as [r | cls msg].
    - rewrite Z.eqb_eq. split.
      + intros H. exists r. auto.
      + intros [r' [Hr H]]. inversion Hr; subst. exact H.
    - split; [discriminate | intros [r' [Hr _]]; discriminate]. }
  do 2 eexists. split; [| split; [| split; [reflexivity |]]].
  - unfold app, router. rewrite Hrun, answer_returns.
    destruct (probe_returns_200 w tr); cbn [json_compliant forallb];
      rewrite (now_message w); reflexivity.
  - rewrite Hsent. exact Hs1.
  - cbn [dict_lookup String.eqb Ascii.eqb Bool.eqb].
    destruct (probe_returns_200 w tr); split; split; intros H;
      try discriminate; try reflexivity.
    + apply Hp. reflexivity.
    + exfalso. apply H. apply Hp. reflexivity.
    + apply Hp in H. discriminate.
    + intros H'. apply Hp in H'. discriminate.
Qed.

(** The example of the specification: the downstream engine answers 500. *)
Example health_with_downstream_500 :
  fst (app (lax := no_conversion) (rt := sample_runtime) GET_health
         (world_answering (Responds (mkResponse 500 ""))) [])
  = Returns (json_response 200
               (JObj [ ("status", JStr "degraded");
                       ("services", JObj [ ("gateway", JStr "healthy");
                                           ("kotlin_screener", JStr "unhealthy") ]);
                       ("timestamp", JStr "2024-01-01T00:00:00") ])).
Proof. vm_compute. reflexivity. Qed.

(** ** Defaults *)

(** C10. Only [appKey] and [appSecret] are required.  In a body that
    validates, every absent field takes its declared default.  A body
    holding just the two credentials validates to the instance in which
    every other field has its default, [ma112Enabled], [excludeETF] and
    [excludeETN] being true among them, and that instance is what goes
    downstream, in one request. *)
Theorem minimal_body_validates_with_defaults :
  forall (lax : LaxConversions) (rt : Runtime) k s w tr,
    map name (filter is_required ScreeningRequest) = ["appKey"; "appSecret"]
    /\ model_validate ScreeningRequest (minimal_body k s)
       = inl (screening_defaults k s)
    /\ map fst (screening_defaults k s) = map name ScreeningRequest
    /\ (forall kv request f d,
           model_validate ScreeningRequest (JObj kv) = inl request ->
           In f ScreeningRequest -> default f = Some d ->
           dict_lookup (name f) kv = None ->
           dict_lookup (name f) request = Some d)
    /\ getattr (screening_defaults k s) "ma112Enabled" = JBool true
    /\ getattr (screening_defaults k s) "excludeETF" = JBool true
    /\ getattr (screening_defaults k s) "excludeETN" = JBool true
    /\ json (screen_call w (screening_defaults k s))
       = Some (JObj (screening_defaults k s))
    /\ sent (snd (app (POST_screen (minimal_body k s)) w tr))
       = (sent tr ++ [Sent (screen_call w (screening_defaults k s))])%list.
Proof.
  intros lax rt k s w tr.
  split; [reflexivity |]. split; [reflexivity |]. split; [reflexivity |].
  split.
  { intros kv request f d Hv Hin Hd Hl.
    apply (@absent_field_takes_default lax ScreeningRequest kv request f d);
      auto. }
  split; [reflexivity |]. split; [reflexivity |]. split; [reflexivity |].
  split; [reflexivity |].
  destruct (@valid_body_answer lax rt _ _ screen_stocks (screening_defaults k s)
              w tr (minimal_body_valid lax k s)
              (screen_stocks_outcome (screening_defaults k s) w tr))
    as [tr' [Hrun Hsent]].
  unfold app, router. rewrite Hrun. cbn [snd]. rewrite Hsent.
  apply screen_stocks_sends_once.
Qed.

(** * Further properties of the models *)

Section ModelFacts.
Context {lax : LaxConversions}.

Lemma validate_value_errors_nonempty t at_ v : validate_value t at_ v <> inr [].
Proof.
  destruct t as [p | | ge le | ge le |]; simpl.
  - destruct (validate_str p v); discriminate.
  - destruct (validate_bool v); discriminate.
  - destruct (validate_int ge le v); discriminate.
  - destruct (validate_float ge le v); discriminate.
  - destruct v; try discriminate.
    destruct (validate_items 0 l) as [oks [| e errs]]; discriminate.
Qed.

Lemma validate_field_errors_nonempty kv f : validate_field kv f <> inr [].
Proof.
  unfold validate_field. destruct (dict_lookup (name f) kv).
  - apply validate_value_errors_nonempty.
  - destruct (default f); discriminate.
Qed.

(** Validation succeeds exactly when every field does; the instance lists
    the fields' values in declaration order. *)
Lemma validate_fields_cons kv f rest :
  snd (validate_fields kv (f :: rest)) = [] ->
  exists v, validate_field kv f = inl v
            /\ fst (validate_fields kv (f :: rest))
               = (name f, v) :: fst (validate_fields kv rest)
            /\ snd (validate_fields kv rest) = [].
Proof.
  simpl. destruct (validate_fields kv rest) as [vals errs].
  destruct (validate_field kv f) as [v | es] eqn:E; simpl; intros H.
  - exists v. auto.
  - apply app_eq_nil in H as [He Herrs]. subst.
    exfalso. exact (validate_field_errors_nonempty kv f E).
Qed.

Lemma model_validate_inl fs kv request :
  model_validate fs (JObj kv) = inl request
  <-> snd (validate_fields kv fs) = [] /\ fst (validate_fields kv fs) = request.
Proof.
  unfold model_validate.
  destruct (validate_fields kv fs) as [vals [| e errs]]; simpl; split.
  - intros H; inversion H; auto.
  - intros [_ ->]; reflexivity.
  - discriminate.
  - intros [H _]; discriminate.
Qed.

Lemma validated_names kv fs :
  snd (validate_fields kv fs) = [] ->
  map fst (fst (validate_fields kv fs)) = map name fs.
Proof.
  induction fs as [| f rest IH]; intros H; [reflexivity |].
  destruct (validate_fields_cons kv f rest H) as [v [_ [-> Hrest]]].
  simpl. rewrite (IH Hrest). reflexivity.
Qed.

(** Two bodies on which every field validates alike give the same
    instance. *)
Lemma validate_fields_transfer kv kv' fs :
  (forall f v, In f fs -> validate_field kv f = inl v -> validate_field kv' f = inl v) ->
  snd (validate_fields kv fs) = [] ->
  validate_fields kv' fs = validate_fields kv fs.
Proof.
  induction fs as [| f rest IH]; intros Hsame H; [reflexivity |].
  destruct (validate_fields_cons kv f rest H) as [v [Hf [_ Hrest]]].
  assert (IH' : validate_fields kv' rest = validate_fields kv rest).
  { apply IH; [| exact Hrest]. intros g w Hin. apply Hsame. right; exact Hin. }
  simpl. rewrite IH'. rewrite (Hsame f v (or_introl eq_refl) Hf), Hf. reflexivity.
Qed.

Lemma validate_field_agree kv kv' f v :
  dict_lookup (name f) kv' = dict_lookup (name f) kv ->
  validate_field kv f = inl v -> validate_field kv' f = inl v.
Proof.
  unfold validate_field. intros ->.
  destruct (dict_lookup (name f) kv); [auto |].
  destruct (default f); [auto | discriminate].
Qed.

Lemma validate_items_strings i l oks :
  validate_items i l = (oks, []) -> oks = l /\ forallb is_string l = true.
Proof.
  revert i oks. induction l as [| v rest IH]; intros i oks H; simpl in H.
  - inversion H. auto.
  - destruct (validate_items (S i) rest) as [oks' errs'] eqn:E.
    destruct v; simpl in H; try discriminate.
    inversion H; subst. destruct (IH _ _ E) as [-> Hs]. simpl. auto.
Qed.

Lemma validate_items_of_strings i l :
  forallb is_string l = true -> validate_items i l = (l, []).
Proof.
  revert i. induction l as [| v rest IH]; intros i H; [reflexivity |].
  simpl in H. apply andb_true_iff in H as [Hv Hrest].
  simpl. rewrite (IH (S i) Hrest). destruct v; try discriminate. reflexivity.
Qed.

(** The location of an error plays no part in whether a value validates. *)
Lemma validate_value_at t at_ at' v v' :
  validate_value t at_ v = inl v' -> validate_value t at' v = inl v'.
Proof.
  destruct t as [p | | ge le | ge le |]; simpl.
  - destruct (validate_str p v); [auto | discriminate].
  - destruct (validate_bool v); [auto | discriminate].
  - destruct (validate_int ge le v); [auto | discriminate].
  - destruct (validate_float ge le v); [auto | discriminate].
  - destruct v; try discriminate.
    destruct (validate_items 0 l) as [oks [| e errs]]; [auto | discriminate].
Qed.

(** A validated value validates again, to itself. *)
Lemma validate_value_idem t at_ v v' :
  validate_value t at_ v = inl v' -> validate_value t at_ v' = inl v'.
Proof.
  destruct t as [p | | ge le | ge le |]; simpl.
  - unfold validate_str. destruct v; try discriminate.
    destruct p as [r |].
    + destruct (Regex.fullmatch r s) eqn:E; [| discriminate].
      intros H; inversion H; subst. rewrite E. reflexivity.
    + intros H; inversion H; subst. reflexivity.
  - unfold validate_bool.
    destruct v; try (destruct (lax_bool _); [| discriminate]);
      intros H; inversion H; subst; reflexivity.
  - unfold validate_int. destruct (as_int v) as [n |]; [| discriminate].
    unfold check_int.
    destruct (negb (le_ok_Z le n)) eqn:El; [discriminate |].
    destruct (negb (ge_ok_Z ge n)) eqn:Eg; [discriminate |].
    intros H; inversion H; subst. simpl. rewrite El, Eg. reflexivity.
  - unfold validate_float. destruct (as_float v) as [x |]; [| discriminate].
    unfold check_float.
    destruct (negb (le_ok_float le x)) eqn:El; [discriminate |].
    destruct (negb (ge_ok_float ge x)) eqn:Eg; [discriminate |].
    intros H; inversion H; subst. simpl. rewrite El, Eg. reflexivity.
  - destruct v; try discriminate.
    destruct (validate_items 0 l) as [oks [| e errs]] eqn:E; [| discriminate].
    intros H; inversion H; subst.
    destruct (validate_items_strings _ _ E) as [-> Hs].
    rewrite (validate_items_of_strings 0 l Hs). reflexivity.
Qed.

(** Every declared default satisfies the constraints of its own field. *)
Lemma ScreeningRequest_defaults_valid f d at_ :
  In f ScreeningRequest -> default f = Some d ->
  validate_value (annotation f) at_ d = inl d.
Proof.
  intros Hin Hd. unfold ScreeningRequest, bool_field in Hin. simpl in Hin.
  repeat (destruct Hin as [<- | Hin];
          [simpl in Hd; try discriminate; inversion Hd; reflexivity |]).
  destruct Hin.
Qed.

Lemma ScreeningRequest_unique_names :
  unique_names (map name ScreeningRequest) = true.
Proof. reflexivity. Qed.

Lemma validated_field kv fs f :
  snd (validate_fields kv fs) = [] -> In f fs ->
  exists v, validate_field kv f = inl v.
Proof.
  induction fs as [| g rest IH]; intros H Hin; [destruct Hin |].
  destruct (validate_fields_cons kv g rest H) as [v [Hg [_ Hrest]]].
  destruct Hin as [-> | Hin]; [exists v; exact Hg | auto].
Qed.

Lemma revalidation fs kv request :
  unique_names (map name fs) = true ->
  (forall f d at_, In f fs -> default f = Some d ->
                   validate_value (annotation f) at_ d = inl d) ->
  model_validate fs (JObj kv) = inl request ->
  model_validate fs (JObj request) = inl request.
Proof.
  intros Hu Hdef Hv. apply model_validate_inl in Hv as [Herrs Hvals].
  apply model_validate_inl.
  assert (Hsame : validate_fields request fs = validate_fields kv fs).
  { apply validate_fields_transfer; [| exact Herrs].
    intros f v Hin Hf.
    pose proof (validate_fields_lookup kv fs f Hu Hin Hf) as Hl.
    rewrite Hvals in Hl. unfold validate_field in *. rewrite Hl.
    destruct (dict_lookup (name f) kv) as [x |].
    - eapply validate_value_idem. exact Hf.
    - destruct (default f) as [d |] eqn:Ed; [| discriminate].
      inversion Hf; subst. apply Hdef; auto. }
  rewrite Hsame. auto.
Qed.

Lemma dict_lookup_set_same k v kv : dict_lookup k (dict_set k v kv) = Some v.
Proof.
  induction kv as [| [k0 v0] rest IH]; simpl.
  - rewrite String.eqb_refl. reflexivity.
  - destruct (String.eqb k k0) eqn:E; simpl; rewrite E; auto.
Qed.

Lemma unique_names_head x l y :
  unique_names (x :: l) = true -> In y l -> x <> y.
Proof.
  simpl. intros H Hin ->. apply andb_true_iff in H as [H _].
  apply negb_true_iff in H.
  assert (Ht : existsb (String.eqb y) l = true).
  { apply existsb_exists. exists y. split; [exact Hin | apply String.eqb_refl]. }
  congruence.
Qed.

Lemma validate_field_set_other kv k v f w :
  k <> name f ->
  validate_field kv f = inl w -> validate_field (dict_set k v kv) f = inl w.
Proof.
  intros Hne. apply validate_field_agree. apply dict_lookup_set_other. exact Hne.
Qed.

(** Replacing one field of a valid body by a value that validates for that
    field gives a valid body again; the instance changes at that field
    only. *)
Lemma validate_fields_update kv fs f v v' :
  unique_names (map name fs) = true -> In f fs ->
  snd (validate_fields kv fs) = [] ->
  validate_value (annotation f) [LKey "body"; LKey (name f)] v = inl v' ->
  validate_fields (dict_set (name f) v kv) fs
  = (dict_set (name f) v' (fst (validate_fields kv fs)), []).
Proof.
  intros Hu Hin Herrs Hval. induction fs as [| g rest IH]; [destruct Hin |].
  destruct (validate_fields_cons kv g rest Herrs) as [vg [Hg [Hfst Hrest]]].
  rewrite Hfst. pose proof Hu as Hu'. simpl in Hu'.
  apply andb_true_iff in Hu' as [_ Hurest].
  destruct Hin as [-> | Hin].
  - assert (Hsame : validate_fields (dict_set (name f) v kv) rest
                    = validate_fields kv rest).
    { apply validate_fields_transfer; [| exact Hrest].
      intros h w Hh. apply validate_field_set_other.
      apply (@unique_names_head (name f) (map name rest) (name h) Hu).
      apply in_map. exact Hh. }
    simpl. rewrite Hsame.
    unfold validate_field at 1. rewrite dict_lookup_set_same, Hval.
    rewrite String.eqb_refl.
    destruct (validate_fields kv rest) as [vals errs]. simpl in Hrest. subst.
    reflexivity.
  - assert (Hne : name g <> name f).
    { apply (@unique_names_head (name g) (map name rest) (name f) Hu).
      apply in_map. exact Hin. }
    simpl. rewrite (IH Hurest Hin Hrest).
    rewrite (@validate_field_set_other kv (name f) v g vg (not_eq_sym Hne) Hg).
    replace (String.eqb (name f) (name g)) with false
      by (symmetry; apply String.eqb_neq; auto).
    reflexivity.
Qed.

Lemma dict_lookup_not_key k (kv : list (string * JSON)) :
  ~ In k (map fst kv) -> dict_lookup k kv = None.
Proof.
  induction kv as [| [k0 v0] rest IH]; simpl; intros H; [reflexivity |].
  destruct (String.eqb k k0) eqn:E.
  - apply String.eqb_eq in E. subst. exfalso. apply H. left; reflexivity.
  - apply IH. intros Hin. apply H. right; exact Hin.
Qed.

Lemma validate_items_non_string i l j v :
  nth_error l j = Some v -> is_string v = false ->
  In ((i + j)%nat, string_type, v) (snd (validate_items i l)).
Proof.
  revert i j. induction l as [| x rest IH]; intros i j Hn Hs.
  - destruct j; discriminate.
  - simpl. destruct (validate_items (S i) rest) as [oks errs] eqn:E.
    destruct j as [| j].
    + simpl in Hn. inversion Hn; subst.
      destruct v; try discriminate; simpl; left; f_equal; f_equal; lia.
    + simpl in Hn. pose proof (IH (S i) j Hn Hs) as Hin. rewrite E in Hin.
      simpl in Hin. replace (i + S j)%nat with (S i + j)%nat by lia.
      destruct (validate_str None x); simpl; auto.
Qed.

Lemma model_validate_update kv request f v v' :
  model_validate ScreeningRequest (JObj kv) = inl request ->
  In f ScreeningRequest ->
  validate_value (annotation f) [LKey "body"; LKey (name f)] v = inl v' ->
  model_validate ScreeningRequest (JObj (dict_set (name f) v kv))
  = inl (dict_set (name f) v' request).
Proof.
  intros Hv Hin Hval.
  apply model_validate_inl in Hv as [Herrs Hvals].
  apply model_validate_inl.
  rewrite (@validate_fields_update kv ScreeningRequest f v v'
             ScreeningRequest_unique_names Hin Herrs Hval).
  cbn [fst snd]. rewrite Hvals. auto.
Qed.

End ModelFacts.

(** X1. A request that validated validates again when it is read back
    from its own dump, to the same instance: every declared default lies
    within the constraints of its field, and a validated value is a fixed
    point of its validator. *)
Theorem validated_request_revalidates :
  forall (lax : LaxConversions) body request,
    model_validate ScreeningRequest body = inl request ->
    model_validate ScreeningRequest (model_dump request) = inl request.
Proof.
  intros lax body request H. destruct body; try discriminate.
  apply (@revalidation lax ScreeningRequest kv request); auto.
  intros f d at_. apply ScreeningRequest_defaults_valid.
Qed.

Lemma validated_request_revalidates_witness :
  model_validate (lax := no_conversion) ScreeningRequest
    (model_dump (screening_defaults "key" "secret"))
  = inl (screening_defaults "key" "secret").
Proof.
  apply (@validated_request_revalidates no_conversion (minimal_body "key" "secret")).
  reflexivity.
Defined.

(** X2. Fields are validated one by one, with no check across fields: in
    a body that validates, replacing one field by any value that validates
    for that field gives a body that validates, and the instance differs at
    that field only. *)
Theorem field_replaced_independently :
  forall (lax : LaxConversions) kv request f v v',
    model_validate ScreeningRequest (JObj kv) = inl request ->
    In f ScreeningRequest ->
    validate_value (annotation f) [LKey "body"; LKey (name f)] v = inl v' ->
    model_validate ScreeningRequest (JObj (dict_set (name f) v kv))
    = inl (dict_set (name f) v' request).
Proof.
  intros lax kv request f v v' Hv Hin Hval.
  apply model_validate_update; assumption.
Qed.

Lemma field_replaced_independently_witness :
  model_validate (lax := no_conversion) ScreeningRequest
    (JObj (dict_set "ma60Min" (JInt 200)
             [("appKey", JStr "key"); ("appSecret", JStr "secret")]))
  = inl (dict_set "ma60Min" (JInt 200) (screening_defaults "key" "secret")).
Proof.
  apply (@field_replaced_independently no_conversion
           [("appKey", JStr "key"); ("appSecret", JStr "secret")]
           (screening_defaults "key" "secret")
           (mkField "ma60Min" (TInt (Some 0) (Some 200)) (Some (JInt 95)))
           (JInt 200) (JInt 200)).
  - reflexivity.
  - simpl. do 4 right. left. reflexivity.
  - reflexivity.
Defined.

Section BoundFacts.
Context {lax : LaxConversions}.

Lemma within_bounds_validates t at_ v :
  within_bounds t v = true -> validate_value t at_ v = inl v.
Proof.
  destruct t as [p | | ge le | ge le |], v; simpl; try discriminate; intros H;
    apply andb_true_iff in H as [Hg Hl].
  - unfold validate_int, check_int. simpl. rewrite Hg, Hl. reflexivity.
  - unfold validate_float, check_float. simpl. rewrite Hg, Hl. reflexivity.
Qed.

Lemma validates_within_bounds t at_ v v' :
  match t, v with
  | TInt _ _, JInt _ => True
  | TFloat _ _, JFloat x => x <> S754_nan
  | _, _ => False
  end ->
  validate_value t at_ v = inl v' -> within_bounds t v = true.
Proof.
  destruct t as [p | | ge le | ge le |], v; simpl; intros Hk H;
    try contradiction.
  - unfold validate_int, check_int in H. simpl in H.
    destruct (le_ok_Z le n), (ge_ok_Z ge n); simpl in H; try discriminate.
    reflexivity.
  - unfold validate_float, check_float in H. simpl in H.
    destruct (le_ok_float le x), (ge_ok_float ge x); simpl in H; try discriminate.
    reflexivity.
Qed.

(** What a replaced field must satisfy for the body to stay valid. *)
Lemma replaced_field_accepted_iff kv request f v :
  model_validate ScreeningRequest (JObj kv) = inl request ->
  In f ScreeningRequest ->
  (exists request',
      model_validate ScreeningRequest (JObj (dict_set (name f) v kv)) = inl request')
  <-> exists v', validate_value (annotation f) [LKey "body"; LKey (name f)] v = inl v'.
Proof.
  intros Hv Hin. split.
  - intros [request' H]. apply model_validate_inl in H as [Herrs _].
    destruct (validated_field _ _ f Herrs Hin) as [v' Hf].
    unfold validate_field in Hf. rewrite dict_lookup_set_same in Hf.
    exists v'. exact Hf.
  - intros [v' Hval]. exists (dict_set (name f) v' request).
    apply model_validate_update; assumption.
Qed.

(** An integer is accepted for an integer field exactly when it is not
    below the lower bound and not above the upper one. *)
Lemma integer_accepted_iff ge le at_ n :
  (exists v', validate_value (TInt ge le) at_ (JInt n) = inl v')
  <-> match ge with Some b => b <= n | None => True end
      /\ match le with Some b => n <= b | None => True end.
Proof.
  cbn [validate_value]. unfold validate_int, as_int, check_int, ge_ok_Z, le_ok_Z.
  destruct ge as [g |], le as [l |];
    repeat match goal with
           | |- context [?a <=? ?b] => destruct (Z.leb_spec a b)
           end;
    cbn [negb]; split; intros Hacc;
    try (destruct Hacc as [v' Hacc]; discriminate);
    try solve [split; first [lia | exact I]];
    try solve [eexists; reflexivity];
    try solve [exfalso; destruct Hacc; lia].
Qed.

Lemma integer_field_declared fname lo hi :
  In (fname, (lo, hi)) integer_fields ->
  exists d, In (mkField fname (TInt (Some lo) (Some hi)) d) ScreeningRequest.
Proof.
  unfold integer_fields. intros H. cbn [In] in H.
  repeat (destruct H as [H | H];
          [inversion H; subst; eexists; unfold ScreeningRequest, bool_field;
           cbn [In]; tauto |]).
  destruct H.
Qed.

End BoundFacts.

(** X3. No check relates a minimum to a maximum: in a body that
    validates, the two thresholds of a moving-average family can be set to
    any two integers between 0 and 200, the minimum above the maximum as
    well, and the body validates with both values kept. *)
Theorem ma_min_above_max_accepted :
  forall (lax : LaxConversions) kv request family lo hi,
    model_validate ScreeningRequest (JObj kv) = inl request ->
    In family ["ma60"; "ma112"; "ma224"] ->
    0 <= lo <= 200 -> 0 <= hi <= 200 ->
    model_validate ScreeningRequest
      (JObj (dict_set (family ++ "Min") (JInt lo)
               (dict_set (family ++ "Max") (JInt hi) kv)))
    = inl (dict_set (family ++ "Min") (JInt lo)
             (dict_set (family ++ "Max") (JInt hi) request)).
Proof.
  intros lax kv request family lo hi Hv Hfam Hlo Hhi.
  assert (Hval : forall at_ n, 0 <= n <= 200 ->
             validate_value (TInt (Some 0) (Some 200)) at_ (JInt n) = inl (JInt n)).
  { intros at_ n Hn. apply within_bounds_validates. simpl.
    apply andb_true_iff. split; apply Z.leb_le; lia. }
  assert (Hstep : forall kv0 request0 fname n d,
             model_validate ScreeningRequest (JObj kv0) = inl request0 ->
             In (mkField fname (TInt (Some 0) (Some 200)) d) ScreeningRequest ->
             0 <= n <= 200 ->
             model_validate ScreeningRequest (JObj (dict_set fname (JInt n) kv0))
             = inl (dict_set fname (JInt n) request0)).
  { intros kv0 request0 fname n d H0 Hin Hn.
    apply (@model_validate_update lax kv0 request0
             (mkField fname (TInt (Some 0) (Some 200)) d) (JInt n) (JInt n) H0 Hin).
    apply Hval. exact Hn. }
  simpl in Hfam. destruct Hfam as [<- | [<- | [<- | []]]]; simpl.
  - apply (Hstep _ _ "ma60Min" lo (Some (JInt 95))); [| simpl; tauto | exact Hlo].
    apply (Hstep _ _ "ma60Max" hi (Some (JInt 105))); [exact Hv | simpl; tauto | exact Hhi].
  - apply (Hstep _ _ "ma112Min" lo (Some (JInt 95))); [| simpl; tauto | exact Hlo].
    apply (Hstep _ _ "ma112Max" hi (Some (JInt 105))); [exact Hv | simpl; tauto | exact Hhi].
  - apply (Hstep _ _ "ma224Min" lo (Some (JInt 95))); [| simpl; tauto | exact Hlo].
    apply (Hstep _ _ "ma224Max" hi (Some (JInt 105))); [exact Hv | simpl; tauto | exact Hhi].
Qed.

Lemma ma_min_above_max_accepted_witness :
  model_validate (lax := no_conversion) ScreeningRequest
    (JObj (dict_set "ma112Min" (JInt 150)
             (dict_set "ma112Max" (JInt 50)
                [("appKey", JStr "key"); ("appSecret", JStr "secret")])))
  = inl (dict_set "ma112Min" (JInt 150)
           (dict_set "ma112Max" (JInt 50) (screening_defaults "key" "secret"))).
Proof.
  apply (@ma_min_above_max_accepted no_conversion
           [("appKey", JStr "key"); ("appSecret", JStr "secret")]
           (screening_defaults "key" "secret") "ma112" 150 50).
  - reflexivity.
  - simpl. tauto.
  - lia.
  - lia.
Defined.

(** X4. The bounds of the integer fields are inclusive, and they are the
    only condition on an integer: in a body that validates, setting one of
    the six moving-average thresholds or [bbPeriod] to an integer keeps the
    body valid exactly when the integer lies between 0 and 200 (between 5
    and 100 for [bbPeriod]), the two ends included. *)
Theorem integer_accepted_iff_within_bounds :
  forall (lax : LaxConversions) kv request fname lo hi n,
    model_validate ScreeningRequest (JObj kv) = inl request ->
    In (fname, (lo, hi)) integer_fields ->
    (exists request',
        model_validate ScreeningRequest (JObj (dict_set fname (JInt n) kv))
        = inl request')
    <-> lo <= n <= hi.
Proof.
  intros lax kv request fname lo hi n Hv Hin.
  destruct (integer_field_declared Hin) as [d Hf].
  rewrite (@replaced_field_accepted_iff lax kv request
             (mkField fname (TInt (Some lo) (Some hi)) d) (JInt n) Hv Hf).
  cbn [annotation name]. apply integer_accepted_iff.
Qed.

Lemma integer_accepted_iff_within_bounds_witness :
  (exists request',
      model_validate (lax := no_conversion) ScreeningRequest
        (JObj (dict_set "bbPeriod" (JInt 100)
                 [("appKey", JStr "key"); ("appSecret", JStr "secret")]))
      = inl request')
  /\ ~ (exists request',
          model_validate (lax := no_conversion) ScreeningRequest
            (JObj (dict_set "bbPeriod" (JInt 101)
                     [("appKey", JStr "key"); ("appSecret", JStr "secret")]))
          = inl request')
  /\ ~ (exists request',
          model_validate (lax := no_conversion) ScreeningRequest
            (JObj (dict_set "bbPeriod" (JInt 4)
                     [("appKey", JStr "key"); ("appSecret", JStr "secret")]))
          = inl request').
Proof.
  assert (Hin : In ("bbPeriod", (5, 100)) integer_fields)
    by (unfold integer_fields; cbn [In]; tauto).
  split; [| split].
  - apply (proj2 (@integer_accepted_iff_within_bounds no_conversion
                    [("appKey", JStr "key"); ("appSecret", JStr "secret")]
                    (screening_defaults "key" "secret") "bbPeriod" 5 100 100
                    (eq_refl _) Hin)).
    lia.
  - intros H.
    apply (proj1 (@integer_accepted_iff_within_bounds no_conversion
                    [("appKey", JStr "key"); ("appSecret", JStr "secret")]
                    (screening_defaults "key" "secret") "bbPeriod" 5 100 101
                    (eq_refl _) Hin)) in H.
    lia.
  - intros H.
    apply (proj1 (@integer_accepted_iff_within_bounds no_conversion
                    [("appKey", JStr "key"); ("appSecret", JStr "secret")]
                    (screening_defaults "key" "secret") "bbPeriod" 5 100 4
                    (eq_refl _) Hin)) in H.
    lia.
Defined.

(** X5. [bbPosition] takes the four position names and no other string:
    in a body that validates, setting it to a string keeps the body valid
    exactly when the string is all, upper, middle or lower, letter for
    letter. *)
Theorem bbPosition_accepted_iff_listed :
  forall (lax : LaxConversions) kv request s,
    model_validate ScreeningRequest (JObj kv) = inl request ->
    (exists request',
        model_validate ScreeningRequest (JObj (dict_set "bbPosition" (JStr s) kv))
        = inl request')
    <-> In s bbPosition_values.
Proof.
  intros lax kv request s Hv.
  assert (Hin : In (mkField "bbPosition" (TStr (Some bbPosition_pattern))
                      (Some (JStr "all"))) ScreeningRequest)
    by (simpl; do 15 right; left; reflexivity).
  rewrite (@replaced_field_accepted_iff lax kv request _ (JStr s) Hv Hin).
  cbn [annotation name validate_value validate_str].
  rewrite <- bbPosition_pattern_language.
  destruct (Regex.fullmatch bbPosition_pattern s); split.
  - reflexivity.
  - intros _. eexists; reflexivity.
  - intros [v' H]. discriminate.
  - discriminate.
Qed.

Lemma bbPosition_accepted_iff_listed_witness :
  (exists request',
      model_validate (lax := no_conversion) ScreeningRequest
        (JObj (dict_set "bbPosition" (JStr "Upper")
                 [("appKey", JStr "key"); ("appSecret", JStr "secret")]))
      = inl request')
  <-> In "Upper" bbPosition_values.
Proof.
  apply (@bbPosition_accepted_iff_listed no_conversion
           [("appKey", JStr "key"); ("appSecret", JStr "secret")]
           (screening_defaults "key" "secret") "Upper").
  reflexivity.
Defined.

(** X6. Keys of the body that are not fields of the model are ignored:
    adding or changing such a key changes neither whether the body validates
    nor the instance, which holds the declared fields, in declaration order,
    and nothing else. *)
Theorem unknown_keys_ignored :
  forall (lax : LaxConversions) kv k v request,
    ~ In k (map name ScreeningRequest) ->
    (model_validate ScreeningRequest (JObj (dict_set k v kv)) = inl request
     <-> model_validate ScreeningRequest (JObj kv) = inl request)
    /\ (model_validate ScreeningRequest (JObj kv) = inl request ->
        map fst request = map name ScreeningRequest
        /\ dict_lookup k request = None).
Proof.
  intros lax kv k v request Hk.
  assert (Hother : forall f, In f ScreeningRequest ->
             dict_lookup (name f) (dict_set k v kv) = dict_lookup (name f) kv).
  { intros f Hin. apply dict_lookup_set_other. intros ->. apply Hk.
    apply in_map. exact Hin. }
  split; [split |].
  - intros H. apply model_validate_inl in H as [Herrs Hvals].
    apply model_validate_inl.
    rewrite (@validate_fields_transfer lax (dict_set k v kv) kv ScreeningRequest);
      auto.
    intros f w Hin. apply validate_field_agree. symmetry. apply Hother. exact Hin.
  - intros H. apply model_validate_inl in H as [Herrs Hvals].
    apply model_validate_inl.
    rewrite (@validate_fields_transfer lax kv (dict_set k v kv) ScreeningRequest);
      auto.
    intros f w Hin. apply validate_field_agree. apply Hother. exact Hin.
  - intros H. apply model_validate_inl in H as [Herrs Hvals].
    assert (Hn : map fst request = map name ScreeningRequest).
    { rewrite <- Hvals. apply validated_names. exact Herrs. }
    split; [exact Hn |]. apply dict_lookup_not_key. rewrite Hn. exact Hk.
Qed.

Lemma unknown_keys_ignored_witness :
  (model_validate (lax := no_conversion) ScreeningRequest
     (JObj (dict_set "debug" (JBool true)
              [("appKey", JStr "key"); ("appSecret", JStr "secret")]))
   = inl (screening_defaults "key" "secret")
   <-> model_validate (lax := no_conversion) ScreeningRequest
         (JObj [("appKey", JStr "key"); ("appSecret", JStr "secret")])
       = inl (screening_defaults "key" "secret"))
  /\ (model_validate (lax := no_conversion) ScreeningRequest
        (JObj [("appKey", JStr "key"); ("appSecret", JStr "secret")])
      = inl (screening_defaults "key" "secret") ->
      map fst (screening_defaults "key" "secret") = map name ScreeningRequest
      /\ dict_lookup "debug" (screening_defaults "key" "secret") = None).
Proof.
  apply (@unknown_keys_ignored no_conversion
           [("appKey", JStr "key"); ("appSecret", JStr "secret")]
           "debug" (JBool true) (screening_defaults "key" "secret")).
  simpl. intuition discriminate.
Defined.

(** X7. [targetCodes] takes a list of strings, the empty list included,
    and keeps it as it is: in a body that validates, setting it to a list of
    strings (that hold no lone surrogate) gives a body that validates, with
    that list in the instance; setting it to a list with an item that is not
    a string gives a body that is rejected, with an error located at the
    index of that item. *)
Theorem targetCodes_is_a_list_of_strings :
  forall (lax : LaxConversions) kv request l,
    model_validate ScreeningRequest (JObj kv) = inl request ->
    (forallb is_text l = true ->
     model_validate ScreeningRequest (JObj (dict_set "targetCodes" (JArr l) kv))
     = inl (dict_set "targetCodes" (JArr l) request))
    /\ (forall i v,
           nth_error l i = Some v -> is_string v = false ->
           exists errors,
             model_validate ScreeningRequest
               (JObj (dict_set "targetCodes" (JArr l) kv)) = inr errors
             /\ In (mkError string_type
                      [LKey "body"; LKey "targetCodes"; LIdx i] v) errors).
Proof.
  intros lax kv request l Hv.
  pose (f := mkField "targetCodes" TListStr (Some (JArr []))).
  assert (Hin : In f ScreeningRequest) by (simpl; do 33 right; left; reflexivity).
  split.
  - intros Ht.
    assert (Hs : forallb is_string l = true).
    { clear - Ht. induction l as [| v rest IH]; [reflexivity |].
      cbn [forallb] in *. apply andb_true_iff in Ht as [Hv Hrest].
      rewrite (IH Hrest), andb_true_r. destruct v; try discriminate. reflexivity. }
    apply (@model_validate_update lax kv request f (JArr l) (JArr l) Hv Hin).
    unfold f. cbn [annotation name validate_value].
    rewrite (validate_items_of_strings 0 l Hs). reflexivity.
  - intros i v Hn Hs.
    pose proof (validate_items_non_string 0 l i Hn Hs) as Hitem.
    apply model_validate_rejects.
    apply (@validate_fields_keeps_errors lax _ ScreeningRequest f
             (map (fun e => match e with
                            | (j, k, v') =>
                                mkError k ([LKey "body"; LKey "targetCodes"] ++ [LIdx j])%list v'
                            end) (snd (validate_items 0 l))) _ Hin).
    + unfold validate_field, f. cbn [name annotation].
      rewrite dict_lookup_set_same. cbn [validate_value].
      destruct (validate_items 0 l) as [oks [| e errs]]; [destruct Hitem |].
      reflexivity.
    + apply in_map_iff. exists (i, string_type, v). split; [reflexivity | exact Hitem].
Qed.

Lemma targetCodes_is_a_list_of_strings_witness :
  model_validate (lax := no_conversion) ScreeningRequest
    (JObj (dict_set "targetCodes" (JArr [JStr "005930"; JStr "000660"])
             [("appKey", JStr "key"); ("appSecret", JStr "secret")]))
  = inl (dict_set "targetCodes" (JArr [JStr "005930"; JStr "000660"])
           (screening_defaults "key" "secret"))
  /\ model_validate (lax := no_conversion) ScreeningRequest
       (JObj (dict_set "targetCodes" (JArr [])
                [("appKey", JStr "key"); ("appSecret", JStr "secret")]))
     = inl (dict_set "targetCodes" (JArr []) (screening_defaults "key" "secret"))
  /\ exists errors,
      model_validate (lax := no_conversion) ScreeningRequest
        (JObj (dict_set "targetCodes" (JArr [JStr "005930"; JInt 660])
                 [("appKey", JStr "key"); ("appSecret", JStr "secret")]))
      = inr errors
      /\ In (mkError string_type [LKey "body"; LKey "targetCodes"; LIdx 1] (JInt 660))
           errors.
Proof.
  split; [| split].
  - apply (proj1 (@targetCodes_is_a_list_of_strings no_conversion
                    [("appKey", JStr "key"); ("appSecret", JStr "secret")]
                    (screening_defaults "key" "secret")
                    [JStr "005930"; JStr "000660"] (eq_refl _))).
    reflexivity.
  - apply (proj1 (@targetCodes_is_a_list_of_strings no_conversion
                    [("appKey", JStr "key"); ("appSecret", JStr "secret")]
                    (screening_defaults "key" "secret") [] (eq_refl _))).
    reflexivity.
  - apply (proj2 (@targetCodes_is_a_list_of_strings no_conversion
                    [("appKey", JStr "key"); ("appSecret", JStr "secret")]
                    (screening_defaults "key" "secret")
                    [JStr "005930"; JInt 660] (eq_refl _)) 1%nat (JInt 660));
      reflexivity.
Defined.

(** * Further properties of the routes *)




(** X9. The screen route answers with one of five statuses only: 200,
    500, 503, 504, or the status the downstream engine answered with. *)
Theorem screen_status_is_one_of_five :
  forall (lax : LaxConversions) (rt : Runtime) body request w tr,
    model_validate ScreeningRequest body = inl request ->
    exists resp,
      fst (app (POST_screen body) w tr) = Returns resp
      /\ (status resp = 200 \/ status resp = 500 \/ status resp = 503
          \/ status resp = 504
          \/ exists r, downstream w (length (sent tr)) (screen_call w request)
                       = Responds r /\ status resp = status_code r).
Proof.
  intros lax rt body request w tr Hvalid.
  destruct (@valid_body_answer lax rt _ _ screen_stocks request w tr Hvalid
              (screen_stocks_outcome request w tr))
    as [tr' [Hrun _]].
  unfold app, router. rewrite Hrun. cbn [fst]. clear Hrun.
  eexists. split; [reflexivity |].
  rewrite screen_stocks_summary.
  destruct (downstream w (length (sent tr)) (screen_call w request)) as [r | cls msg];
    unfold screen_outcome.
  - assert (Hraise : forall sc d,
               status (answer w (Raises (HTTPException sc d))) = sc
               \/ status (answer w (Raises (HTTPException sc d))) = 500)
      by (intros sc d; apply answer_http_status).
    assert (H500 : forall d,
               status (answer w (Raises (HTTPException 500 d))) = 500)
      by (intros d; destruct (Hraise 500 d); assumption).
    destruct (status_code r =? 200).
    + destruct (json_loads (text r)) as [v | m]; [destruct v |];
        try (right; left; apply H500).
      rewrite answer_returns. destruct (json_compliant (JObj kv)); auto.
    + destruct (String.eqb (text r) "");
        [| destruct (json_loads (text r)) as [[| b | n | x | s | l | kv] | m];
           try destruct (status_phrase (status_code r))];
        try (right; left; apply H500);
        match goal with
        | |- context [HTTPException (status_code r) ?d] =>
            destruct (Hraise (status_code r) d) as [E | E]; rewrite E; auto
        end; do 4 right; exists r; auto.
  - assert (Hraise : forall sc d,
               status (answer w (Raises (HTTPException sc d))) = sc
               \/ status (answer w (Raises (HTTPException sc d))) = 500)
      by (intros sc d; apply answer_http_status).
    destruct (isinstance_TimeoutException (Exc cls msg));
      [| destruct (isinstance_ConnectError (Exc cls msg))];
      match goal with
      | |- context [HTTPException ?sc ?d] =>
          destruct (Hraise sc d) as [E | E]; rewrite E; auto
      end.
Qed.

Lemma screen_status_is_one_of_five_witness :
  exists resp,
    fst (app (lax := no_conversion) (rt := sample_runtime)
           (POST_screen (minimal_body "key" "secret"))
           (world_answering (Responds (mkResponse 418 "{}"))) []) = Returns resp
    /\ (status resp = 200 \/ status resp = 500 \/ status resp = 503
        \/ status resp = 504
        \/ exists r,
            downstream (world_answering (Responds (mkResponse 418 "{}")))
              (length (sent []))
              (screen_call (world_answering (Responds (mkResponse 418 "{}")))
                 (screening_defaults "key" "secret"))
            = Responds r /\ status resp = status_code r).
Proof.
  apply (@screen_status_is_one_of_five no_conversion sample_runtime
           (minimal_body "key" "secret") (screening_defaults "key" "secret")
           (world_answering (Responds (mkResponse 418 "{}"))) []).
  reflexivity.
Defined.

(** X10. A downstream 200 whose body is valid JSON but not an object (a
    list, a string, a number, null) is not relayed: reading the match count
    off it fails, and the screen route answers 500 with the text of that
    failure. *)
Theorem screen_200_with_non_object_yields_500 :
  forall (lax : LaxConversions) (rt : Runtime) body request w tr r v,
    model_validate ScreeningRequest body = inl request ->
    downstream w (length (sent tr)) (screen_call w request) = Responds r ->
    status_code r = 200 ->
    json_loads (text r) = inl v ->
    (forall kv, v <> JObj kv) ->
    fst (app (POST_screen body) w tr)
    = Returns (json_response 500
                 (error_envelope
                    (JStr ("스크리닝 중 오류 발생: '" ++ type_name v
                           ++ "' object has no attribute 'get'")) w)).
Proof.
  intros lax rt body request w tr r v Hvalid Hr Hsc Hj Hv.
  destruct (@valid_body_answer lax rt _ _ screen_stocks request w tr Hvalid
              (screen_stocks_outcome request w tr))
    as [tr' [Hrun _]].
  unfold app, router. rewrite Hrun. cbn [fst]. clear Hrun.
  rewrite screen_stocks_summary, Hr. unfold screen_outcome.
  rewrite Hsc, Hj. cbn [Z.eqb Pos.eqb].
  destruct v as [| b | n | x | s | l | kv'];
    try (rewrite answer_http_str by reflexivity; reflexivity).
  exfalso. apply (Hv kv'). reflexivity.
Qed.

Lemma screen_200_with_non_object_yields_500_witness :
  fst (app (lax := no_conversion) (rt := sample_runtime)
         (POST_screen (minimal_body "key" "secret"))
         (world_answering (Responds (mkResponse 200 "[]"))) [])
  = Returns (json_response 500
               (JObj [ ("error",
                         JStr ("스크리닝 중 오류 발생: 'list' object has no attribute 'get'"));
                       ("timestamp", JStr "2024-01-01T00:00:00") ])).
Proof.
  apply (@screen_200_with_non_object_yields_500 no_conversion sample_runtime
           (minimal_body "key" "secret") (screening_defaults "key" "secret")
           (world_answering (Responds (mkResponse 200 "[]"))) []
           (mkResponse 200 "[]") (JArr [])).
  - reflexivity.
  - reflexivity.
  - reflexivity.
  - reflexivity.
  - intros kv. discriminate.
Defined.

(** X11. Any failure of the screen route that is neither a timeout nor a
    refused connection, be it another exception of the client or a body
    that does not decode, is answered 500 with the text of the exception
    after the fixed prefix. *)
Theorem screen_unexpected_failure_yields_500 :
  forall (lax : LaxConversions) (rt : Runtime) body request w tr msg,
    model_validate ScreeningRequest body = inl request ->
    (exists cls,
        downstream w (length (sent tr)) (screen_call w request) = Fails cls msg
        /\ isinstance_TimeoutException (Exc cls msg) = false
        /\ isinstance_ConnectError (Exc cls msg) = false)
    \/ (exists r,
           downstream w (length (sent tr)) (screen_call w request) = Responds r
           /\ (status_code r = 200 \/ text r <> "")
           /\ json_loads (text r) = inr msg) ->
    fst (app (POST_screen body) w tr)
    = Returns (json_response 500
                 (error_envelope (JStr ("스크리닝 중 오류 발생: " ++ msg)) w)).
Proof.
  intros lax rt body request w tr msg Hvalid Hcase.
  destruct (@valid_body_answer lax rt _ _ screen_stocks request w tr Hvalid
              (screen_stocks_outcome request w tr))
    as [tr' [Hrun _]].
  unfold app, router. rewrite Hrun. cbn [fst]. clear Hrun.
  rewrite screen_stocks_summary. unfold screen_outcome.
  assert (Hmsg : has_surrogate msg = false).
  { destruct Hcase as [[cls [Hd _]] | [r [_ [_ Hj]]]].
    - apply (downstream_message w _ _ Hd).
    - apply (json_loads_message _ Hj). }
  assert (Hfail : answer w (Raises (HTTPException 500
                                      (JStr ("스크리닝 중 오류 발생: " ++ msg))))
                  = json_response 500
                      (error_envelope (JStr ("스크리닝 중 오류 발생: " ++ msg)) w))
    by (apply answer_http_prefixed; [reflexivity | exact Hmsg]).
  destruct Hcase as [[cls [-> [Ht Hc]]] | [r [-> [Hs Hj]]]].
  - rewrite Ht, Hc, Hfail. reflexivity.
  - rewrite Hj.
    destruct (status_code r =? 200) eqn:Esc; [rewrite Hfail; reflexivity |].
    destruct Hs as [Hs | Hs]; [apply Z.eqb_neq in Esc; contradiction |].
    replace (String.eqb (text r) "") with false
      by (symmetry; apply String.eqb_neq; exact Hs).
    rewrite Hfail. reflexivity.
Qed.

Lemma screen_unexpected_failure_yields_500_witness :
  fst (app (lax := no_conversion) (rt := sample_runtime)
         (POST_screen (minimal_body "key" "secret"))
         (world_answering (Fails httpx_ReadError "connection reset")) [])
  = Returns (json_response 500
               (JObj [ ("error", JStr ("스크리닝 중 오류 발생: connection reset"));
                       ("timestamp", JStr "2024-01-01T00:00:00") ])).
Proof.
  apply (@screen_unexpected_failure_yields_500 no_conversion sample_runtime
           (minimal_body "key" "secret") (screening_defaults "key" "secret")
           (world_answering (Fails httpx_ReadError "connection reset")) []
           "connection reset").
  - reflexivity.
  - left. exists httpx_ReadError. repeat split; reflexivity.
Defined.


Example stock_codes_list_is_relayed :
  fst (app (lax := no_conversion) (rt := sample_runtime) GET_stock_codes
         (world_answering (Responds (mkResponse 200 "[]"))) [])
  = Returns (json_response 200 (JArr [])).
Proof. vm_compute. reflexivity. Qed.

(** X13. The validate-credentials route answers 200 or 500 and nothing
    else, whatever status the downstream engine answered with; and it says
    [valid: true] only if the downstream engine answered 200. *)
Theorem credentials_answers_200_or_500 :
  forall (lax : LaxConversions) (rt : Runtime) body request w tr,
    model_validate CredentialsRequest body = inl request ->
    exists resp,
      fst (app (POST_validate_credentials body) w tr) = Returns resp
      /\ (status resp = 200 \/ status resp = 500)
      /\ (forall kv,
             content resp = JSONContent (JObj kv) ->
             dict_lookup "valid" kv = Some (JBool true) ->
             exists r,
               downstream w (length (sent tr)) (credentials_call w request)
               = Responds r /\ status_code r = 200).
Proof.
  intros lax rt body request w tr Hvalid.
  destruct (@valid_body_answer lax rt _ _ validate_credentials request w tr Hvalid
              (validate_credentials_outcome request w tr))
    as [tr' [Hrun _]].
  unfold app, router. rewrite Hrun. cbn [fst]. clear Hrun.
  eexists. split; [reflexivity |].
  rewrite validate_credentials_summary. unfold credentials_outcome.
  assert (Hfail : forall d,
             (status (answer w (Raises (HTTPException 500 d))) = 200
              \/ status (answer w (Raises (HTTPException 500 d))) = 500)
             /\ forall kv,
                 content (answer w (Raises (HTTPException 500 d)))
                 = JSONContent (JObj kv) ->
                 dict_lookup "valid" kv = Some (JBool true) ->
                 exists r,
                   downstream w (length (sent tr)) (credentials_call w request)
                   = Responds r /\ status_code r = 200).
  { intros d. unfold answer.
    destruct (json_compliant (error_envelope d w)).
    - split; [right; reflexivity |].
      intros kv Hc Hl. inversion Hc; subst. discriminate.
    - split; [right; reflexivity |].
      intros kv Hc Hl. inversion Hc; subst. discriminate. }
  assert (Hint : forall msg kv,
             content (internal_error_response w msg) = JSONContent (JObj kv) ->
             dict_lookup "valid" kv <> Some (JBool true)).
  { intros msg kv Hc. inversion Hc; subst. discriminate. }
  destruct (downstream w (length (sent tr)) (credentials_call w request))
    as [r | cls msg]; [| apply Hfail].
  destruct (json_loads (text r)) as [v | m]; [| apply Hfail].
  destruct (status_code r =? 200) eqn:Esc.
  - apply Z.eqb_eq in Esc. split; [left; reflexivity |].
    intros kv _ _. exists r. auto.
  - destruct v as [| b | n | x | s | l | kv']; try apply Hfail.
    rewrite answer_returns.
    destruct (json_compliant
                (JObj [ ("valid", JBool false);
                        ("message", match dict_lookup "message" kv' with
                                    | Some m => m
                                    | None => JStr "인증 실패"
                                    end) ])).
    + split; [left; reflexivity |].
      intros kv Hc Hl. inversion Hc; subst. discriminate.
    + split; [right; reflexivity |].
      intros kv Hc Hl. exfalso. exact (Hint _ kv Hc Hl).
Qed.

Lemma credentials_answers_200_or_500_witness :
  exists resp,
    fst (app (lax := no_conversion) (rt := sample_runtime)
           (POST_validate_credentials (minimal_body "key" "secret"))
           (world_answering (Responds (mkResponse 503 "{}"))) []) = Returns resp
    /\ (status resp = 200 \/ status resp = 500)
    /\ (forall kv,
           content resp = JSONContent (JObj kv) ->
           dict_lookup "valid" kv = Some (JBool true) ->
           exists r,
             downstream (world_answering (Responds (mkResponse 503 "{}")))
               (length (sent []))
               (credentials_call (world_answering (Responds (mkResponse 503 "{}")))
                  [("appKey", JStr "key"); ("appSecret", JStr "secret")])
             = Responds r /\ status_code r = 200).
Proof.
  apply (@credentials_answers_200_or_500 no_conversion sample_runtime
           (minimal_body "key" "secret")
           [("appKey", JStr "key"); ("appSecret", JStr "secret")]
           (world_answering (Responds (mkResponse 503 "{}"))) []).
  reflexivity.
Defined.

(** X14. Every request to the gateway sends at most one request
    downstream, and none when the body fails validation or the route is [/]
    or [/api]: the trace of sent requests grows by exactly the request of
    the route.  Each such request goes to the configured base URL, or to the
    default one when none is configured, followed by the path of the
    route. *)
Theorem one_downstream_request_per_route :
  forall (lax : LaxConversions) (rt : Runtime) req w tr,
    sent (snd (app req w tr)) = (sent tr ++ requests_of w req)%list
    /\ (length (requests_of w req) <= 1)%nat
    /\ (forall c, In (Sent c) (requests_of w req) ->
          exists path,
            In path [ "/health"; "/api/v1/screen"; "/api/v1/validate-credentials";
                      "/api/v1/stock-codes" ]
            /\ url c = match getenv w "KOTLIN_SERVICE_URL" with
                       | Some u => u
                       | None => "http://kotlin-screener:8080"
                       end ++ path).
Proof.
  intros lax rt req w tr. split; [| split].
  - unfold app, router, requests_of. destruct req as [| | | body | body |].
    + destruct (@html_route_answer rt w tr) as [tr' [Hrun Hsent]].
      rewrite Hrun. cbn [snd]. rewrite Hsent, app_nil_r. reflexivity.
    + destruct (@json_route_answer rt api_info w tr I) as [tr' [Hrun Hsent]].
      rewrite Hrun. cbn [snd]. rewrite Hsent, app_nil_r. reflexivity.
    + destruct (@json_route_answer rt health_check w tr (health_check_outcome w tr)) as [tr' [Hrun Hsent]].
      rewrite Hrun. cbn [snd]. rewrite Hsent.
      destruct (health_check_returns w tr) as [tr1 [Hh Hs1]].
      rewrite Hh. exact Hs1.
    + destruct (model_validate ScreeningRequest body) as [request | errors] eqn:Hv.
      * destruct (@valid_body_answer lax rt _ _ screen_stocks request w tr Hv
              (screen_stocks_outcome request w tr))
          as [tr' [Hrun Hsent]].
        rewrite Hrun. cbn [snd]. rewrite Hsent. apply screen_stocks_sends_once.
      * destruct (@invalid_body_answer lax rt _ _ screen_stocks errors w tr Hv)
          as [tr' [Hrun [Hsent _]]].
        rewrite Hrun. cbn [snd]. rewrite Hsent, app_nil_r. reflexivity.
    + destruct (model_validate CredentialsRequest body) as [request | errors] eqn:Hv.
      * destruct (@valid_body_answer lax rt _ _ validate_credentials request w tr Hv
              (validate_credentials_outcome request w tr))
          as [tr' [Hrun Hsent]].
        rewrite Hrun. cbn [snd]. rewrite Hsent.
        apply validate_credentials_sends_once.
      * destruct (@invalid_body_answer lax rt _ _ validate_credentials errors w tr Hv)
          as [tr' [Hrun [Hsent _]]].
        rewrite Hrun. cbn [snd]. rewrite Hsent, app_nil_r. reflexivity.
    + destruct (@json_route_answer rt get_stock_codes w tr
              (get_stock_codes_outcome w tr)) as [tr' [Hrun Hsent]].
      rewrite Hrun. cbn [snd]. rewrite Hsent. apply get_stock_codes_sends_once.
  - unfold requests_of. destruct req as [| | | body | body |]; simpl; try lia.
    + destruct (model_validate ScreeningRequest body); simpl; lia.
    + destruct (model_validate CredentialsRequest body); simpl; lia.
  - intros c Hin. unfold requests_of in Hin.
    destruct req as [| | | body | body |]; simpl in Hin.
    + destruct Hin.
    + destruct Hin.
    + destruct Hin as [H | []]. inversion H; subst.
      exists "/health". split; [simpl; tauto | reflexivity].
    + destruct (model_validate ScreeningRequest body); simpl in Hin;
        [| destruct Hin].
      destruct Hin as [H | []]. inversion H; subst.
      exists "/api/v1/screen". split; [simpl; tauto | reflexivity].
    + destruct (model_validate CredentialsRequest body); simpl in Hin;
        [| destruct Hin].
      destruct Hin as [H | []]. inversion H; subst.
      exists "/api/v1/validate-credentials". split; [simpl; tauto | reflexivity].
    + destruct Hin as [H | []]. inversion H; subst.
      exists "/api/v1/stock-codes". split; [simpl; tauto | reflexivity].
Qed.

(** X15. The validate-credentials route forwards the two credentials and
    nothing else: whatever other keys the body holds next to two strings
    (that hold no lone surrogate) under [appKey] and [appSecret], the route
    sends one request, a [POST] to the validate-credentials path of the
    downstream engine with a timeout of ten seconds, whose JSON is the object
    of [appKey] and [appSecret] with the strings of the body. *)
Theorem credentials_call_carries_two_fields :
  forall (lax : LaxConversions) (rt : Runtime) kv k s w tr,
    dict_lookup "appKey" kv = Some (JStr k) ->
    dict_lookup "appSecret" kv = Some (JStr s) ->
    has_surrogate k = false -> has_surrogate s = false ->
    sent (snd (app (POST_validate_credentials (JObj kv)) w tr))
    = (sent tr
       ++ [Sent (mkCall POST
                   (match getenv w "KOTLIN_SERVICE_URL" with
                    | Some u => u
                    | None => "http://kotlin-screener:8080"
                    end ++ "/api/v1/validate-credentials")
                   (Some (minimal_body k s)) [] f_10_0)])%list.
Proof.
  intros lax rt kv k s w tr Hk Hs _ _.
  assert (Hv : model_validate CredentialsRequest (JObj kv)
               = inl [("appKey", JStr k); ("appSecret", JStr s)]).
  { unfold model_validate, CredentialsRequest. cbn [validate_fields].
    unfold validate_field. cbn [name annotation default]. rewrite Hk, Hs.
    reflexivity. }
  destruct (@valid_body_answer lax rt _ _ validate_credentials _ w tr Hv
              (validate_credentials_outcome _ w tr))
    as [tr' [Hrun Hsent]].
  unfold app, router. rewrite Hrun. cbn [snd]. rewrite Hsent.
  rewrite validate_credentials_sends_once. reflexivity.
Qed.

Lemma credentials_call_carries_two_fields_witness :
  sent (snd (app (lax := no_conversion) (rt := sample_runtime)
               (POST_validate_credentials
                  (JObj [ ("appKey", JStr "key"); ("isProduction", JBool true);
                          ("appSecret", JStr "secret") ]))
               (world_answering (Responds (mkResponse 200 "{}"))) []))
  = [Sent (mkCall POST "http://kotlin-screener:8080/api/v1/validate-credentials"
             (Some (JObj [("appKey", JStr "key"); ("appSecret", JStr "secret")]))
             [] f_10_0)].
Proof.
  apply (@credentials_call_carries_two_fields no_conversion sample_runtime
           [ ("appKey", JStr "key"); ("isProduction", JBool true);
             ("appSecret", JStr "secret") ]
           "key" "secret" (world_answering (Responds (mkResponse 200 "{}"))) []);
    reflexivity.
Defined.

(** X16. The page route serves the first of its two candidate files that
    exists, the one next to the module before the one in the parent
    directory, and the built-in page when neither exists, all with status
    200; when the first existing file cannot be read, the exception reaches
    the fallback handler, which answers 500 with the exception's text under
    [detail]. *)
Theorem root_serves_first_existing_file :
  forall (lax : LaxConversions) (rt : Runtime) w tr,
    let page p rest :=
      match file w p with
      | Readable html => html_response (FileContent html)
      | Unreadable _ msg => internal_error_response w msg
      | Absent => rest
      end in
    fst (app GET_root w tr)
    = Returns (page "./stock_screener.html"
                 (page "../stock_screener.html" (html_response NotFoundPage))).
Proof.
  intros lax rt w tr page. subst page.
  destruct (@html_route_answer rt w tr) as [tr' [Hrun _]].
  unfold app, router. rewrite Hrun. cbn [fst]. clear Hrun.
  unfold root, html_paths. simpl root_from. run.
  destruct (file w "./stock_screener.html"); cbn [fst]; try reflexivity.
  destruct (file w "../stock_screener.html"); cbn [fst]; reflexivity.
Qed.

Section ErrorListFacts.
Context {lax : LaxConversions}.

Lemma validate_fields_errors_from kv fs e :
  In e (snd (validate_fields kv fs)) ->
  exists f es, In f fs /\ validate_field kv f = inr es /\ In e es.
Proof.
  induction fs as [| g rest IH]; simpl; [intros [] |].
  destruct (validate_fields kv rest) as [vals errs]. simpl in IH.
  destruct (validate_field kv g) as [v | es] eqn:E; simpl; intros H.
  - destruct (IH H) as [f [es [Hin Hf]]]. exists f, es. auto.
  - apply in_app_or in H as [H | H].
    + exists g, es. auto.
    + destruct (IH H) as [f [es' [Hin Hf]]]. exists f, es'. auto.
Qed.

Lemma validate_field_error_loc kv f es e :
  validate_field kv f = inr es -> In e es ->
  exists suffix, loc e = ([LKey "body"; LKey (name f)] ++ suffix)%list.
Proof.
  unfold validate_field. intros H Hin.
  assert (Hone : forall (r : JSON + ErrorKind) v,
             match r with
             | inl v' => inl v'
             | inr k => inr [mkError k [LKey "body"; LKey (name f)] v]
             end = inr es ->
             exists suffix, loc e = ([LKey "body"; LKey (name f)] ++ suffix)%list).
  { intros [v' | k] v Hr; inversion Hr; subst.
    destruct Hin as [<- | []]. exists []. reflexivity. }
  destruct (dict_lookup (name f) kv) as [v |].
  - destruct (annotation f) as [p | | ge le | ge le |]; simpl in H;
      try (eapply Hone; exact H).
    destruct v; try (inversion H; subst; destruct Hin as [<- | []];
                     exists []; reflexivity).
    destruct (validate_items 0 l) as [oks errs].
    assert (Hes : es = map (fun x => match x with
                                     | (i, k, v') =>
                                         mkError k ([LKey "body"; LKey (name f)]
                                                    ++ [LIdx i])%list v'
                                     end) errs).
    { destruct errs; [discriminate | injection H as <-; reflexivity]. }
    subst es. apply in_map_iff in Hin as [[[i k] v'] [<- _]].
    exists [LIdx i]. reflexivity.
  - destruct (default f); inversion H; subst.
    destruct Hin as [<- | []]. exists []. reflexivity.
Qed.

End ErrorListFacts.

(** X17. Validation does not stop at the first offending field: the
    error list of a rejected body holds the errors of every field that
    fails, and nothing else, and each error is located at the field it comes
    from, or at an item below it. *)
Theorem every_offending_field_is_reported :
  forall (lax : LaxConversions) fs kv errors e,
    model_validate fs (JObj kv) = inr errors ->
    (In e errors
     <-> exists f es, In f fs /\ validate_field kv f = inr es /\ In e es)
    /\ (In e errors ->
        exists f suffix,
          In f fs /\ loc e = ([LKey "body"; LKey (name f)] ++ suffix)%list).
Proof.
  intros lax fs kv errors e H.
  assert (Herrs : errors = snd (validate_fields kv fs)).
  { unfold model_validate in H.
    destruct (validate_fields kv fs) as [vals [| e0 errs]]; inversion H.
    reflexivity. }
  subst errors.
  assert (Hfrom : In e (snd (validate_fields kv fs)) ->
                  exists f es, In f fs /\ validate_field kv f = inr es /\ In e es)
    by apply validate_fields_errors_from.
  split; [split |].
  - exact Hfrom.
  - intros [f [es [Hin [Hf He]]]]. eapply validate_fields_keeps_errors; eauto.
  - intros Hin. destruct (Hfrom Hin) as [f [es [Hf [Hv He]]]].
    destruct (@validate_field_error_loc lax kv f es e Hv He) as [suffix Hl].
    exists f, suffix. auto.
Qed.

Lemma every_offending_field_is_reported_witness :
  (In (mkError greater_than_equal [LKey "body"; LKey "bbPeriod"] (JInt 3))
     [ mkError less_than_equal [LKey "body"; LKey "ma60Min"] (JInt 500);
       mkError greater_than_equal [LKey "body"; LKey "bbPeriod"] (JInt 3) ]
   <-> exists f es,
         In f ScreeningRequest
         /\ validate_field (lax := no_conversion)
              (("ma60Min", JInt 500) :: body_bbPeriod_3) f = inr es
         /\ In (mkError greater_than_equal [LKey "body"; LKey "bbPeriod"] (JInt 3)) es)
  /\ (In (mkError greater_than_equal [LKey "body"; LKey "bbPeriod"] (JInt 3))
        [ mkError less_than_equal [LKey "body"; LKey "ma60Min"] (JInt 500);
          mkError greater_than_equal [LKey "body"; LKey "bbPeriod"] (JInt 3) ]
      -> exists f suffix,
           In f ScreeningRequest
           /\ loc (mkError greater_than_equal [LKey "body"; LKey "bbPeriod"] (JInt 3))
              = ([LKey "body"; LKey (name f)] ++ suffix)%list).
Proof.
  apply (@every_offending_field_is_reported no_conversion ScreeningRequest
           (("ma60Min", JInt 500) :: body_bbPeriod_3)).
  reflexivity.
Defined.
